(** * weather.py: the weather tools of the MCP server

    A shallow embedding of [src/weather/weather.py].  The Python values the
    tools handle are the results of [response.json()], so the embedding
    carries a type of decoded JSON values together with the handful of
    interpreter operations the source applies to them (truth value, [in],
    subscripting, [dict.get], slicing, iteration, [str]).  Exceptions are
    explicit results; the HTTP transport is a parameter of every tool, and
    each call of [client.get] is appended to a log of requests. *)

From Stdlib Require Import String Ascii List ZArith Bool Lia DecimalString.
Import ListNotations.
Open Scope string_scope.

Set Warnings "-register-all".

(** ** Decoded JSON values *)

(** A Python [float] as the program observes it: the source only ever formats
    a float (its [repr]) or tests its truth value. *)
Record pyfloat := mk_float {
  float_repr : string;
  float_is_zero : bool
}.

(** What [json.loads] builds.  A [str] is kept as its UTF-8 bytes; a [dict]
    is the list of its entries in insertion order, which [str] shows, and
    has each key once. *)
Inductive value :=
| VNone
| VBool (b : bool)
| VInt (n : Z)
| VFloat (f : pyfloat)
| VStr (s : string)
| VList (items : list value)
| VDict (entries : list (string * value)).

Definition dict := list (string * value).

(** The exception classes that can arise: those of the interpreter
    operations below, and those of the request ([TransportError] stands for
    the errors of [client.get], timeouts included).  All of them derive from
    [Exception]; the cancellation of the awaiting task is not modelled. *)
Inductive exn :=
| KeyError (key : string)
| TypeError
| AttributeError
| TransportError
| HTTPStatusError (status : Z)
| JSONDecodeError.

Inductive result (A : Type) :=
| Ok (a : A)
| Raise (e : exn).
Arguments Ok {A} a.
Arguments Raise {A} e.

Definition result_bind {A B} (r : result A) (k : A -> result B) : result B :=
  match r with
  | Ok a => k a
  | Raise e => Raise e
  end.

Declare Scope result_scope.
Delimit Scope result_scope with result.
Notation "x <- r ;; k" := (result_bind r (fun x => k))
  (at level 61, r at next level, right associativity) : result_scope.

(** ** Strings *)

Definition LF : string := String "010" EmptyString.

Fixpoint join (sep : string) (parts : list string) : string :=
  match parts with
  | [] => EmptyString
  | [p] => p
  | p :: rest => p ++ sep ++ join sep rest
  end.

Fixpoint contains (needle hay : string) : bool :=
  String.prefix needle hay ||
  match hay with
  | EmptyString => false
  | String _ rest => contains needle rest
  end.

Definition is_continuation (c : ascii) : bool :=
  let n := nat_of_ascii c in (128 <=? n)%nat && (n <? 192)%nat.

Definition starts_with_continuation (s : string) : bool :=
  match s with
  | String c _ => is_continuation c
  | EmptyString => false
  end.

(** The characters of a [str]: each chunk is one UTF-8 encoded code point. *)
Fixpoint codepoints (s : string) : list string :=
  match s with
  | EmptyString => []
  | String c rest =>
      match codepoints rest with
      | chunk :: more =>
          if starts_with_continuation rest then String c chunk :: more
          else String c EmptyString :: chunk :: more
      | [] => [String c EmptyString]
      end
  end.

Definition string_of_Z (n : Z) : string := NilZero.string_of_int (Z.to_int n).

(** ** Interpreter operations on decoded values *)

Fixpoint dict_get (k : string) (d : dict) : option value :=
  match d with
  | [] => None
  | (k', v) :: rest => if String.eqb k k' then Some v else dict_get k rest
  end.

(** [bool(v)], the test behind [not v]. *)
Definition truthy (v : value) : bool :=
  match v with
  | VNone => false
  | VBool b => b
  | VInt n => negb (n =? 0)%Z
  | VFloat f => negb (float_is_zero f)
  | VStr s => negb (String.eqb s EmptyString)
  | VList items => match items with [] => false | _ => true end
  | VDict d => match d with [] => false | _ => true end
  end.

Definition is_str (k : string) (v : value) : bool :=
  match v with
  | VStr s => String.eqb s k
  | _ => false
  end.

(** [k in v] for a string [k]: key membership in a dict, element membership
    in a list, substring in a str, and a [TypeError] on the rest. *)
Definition py_in (k : string) (v : value) : result bool :=
  match v with
  | VDict d => Ok (match dict_get k d with Some _ => true | None => false end)
  | VList items => Ok (existsb (is_str k) items)
  | VStr s => Ok (contains k s)
  | _ => Raise TypeError
  end.

(** [v[k]] for a string [k]. *)
Definition subscript (v : value) (k : string) : result value :=
  match v with
  | VDict d =>
      match dict_get k d with
      | Some x => Ok x
      | None => Raise (KeyError k)
      end
  | _ => Raise TypeError
  end.

(** [v.get(k, default)]: only a dict has the method. *)
Definition py_get (v : value) (k : string) (default : string) : result value :=
  match v with
  | VDict d =>
      match dict_get k d with
      | Some x => Ok x
      | None => Ok (VStr default)
      end
  | _ => Raise AttributeError
  end.

(** [v[:3]].  Slicing a dict fails: with a [TypeError] up to Python 3.11,
    where a slice is unhashable (from 3.12 on the failure is a [KeyError]). *)
Definition slice3 (v : value) : result value :=
  match v with
  | VList items => Ok (VList (firstn 3 items))
  | VStr s => Ok (VStr (String.concat EmptyString (firstn 3 (codepoints s))))
  | _ => Raise TypeError
  end.

(** The sequence a [for] loop or a comprehension runs over. *)
Definition py_iter (v : value) : result (list value) :=
  match v with
  | VList items => Ok items
  | VDict d => Ok (map (fun kv => VStr (fst kv)) d)
  | VStr s => Ok (map VStr (codepoints s))
  | _ => Raise TypeError
  end.

(** ** [str] and [repr] *)

Definition quote1 : ascii := "'".
Definition quote2 : ascii := "034".
Definition backslash : ascii := "\".

Definition hex_digit (n : nat) : ascii :=
  nth n ["0"; "1"; "2"; "3"; "4"; "5"; "6"; "7";
         "8"; "9"; "a"; "b"; "c"; "d"; "e"; "f"]%char "0"%char.

Definition repr_char (quote c : ascii) : string :=
  let n := nat_of_ascii c in
  if Ascii.eqb c quote || Ascii.eqb c backslash then String backslash (String c EmptyString)
  else if (n =? 9)%nat then "\t"
  else if (n =? 10)%nat then "\n"
  else if (n =? 13)%nat then "\r"
  else if (n <? 32)%nat || (n =? 127)%nat then
    "\x" ++ String (hex_digit (n / 16)) (String (hex_digit (n mod 16)) EmptyString)
  else String c EmptyString.

Fixpoint has_char (c : ascii) (s : string) : bool :=
  match s with
  | EmptyString => false
  | String c' rest => Ascii.eqb c c' || has_char c rest
  end.

(** The code point that a chunk of [codepoints] encodes in UTF-8: the payload
    bits of the lead byte, then six bits of each continuation byte. *)
Definition lead_bits (n : N) : N :=
  if (n <? 128)%N then n
  else if (n <? 224)%N then (n - 192)%N
  else if (n <? 240)%N then (n - 224)%N
  else (n - 240)%N.

Fixpoint continuation_bits (acc : N) (s : string) : N :=
  match s with
  | EmptyString => acc
  | String c rest => continuation_bits (acc * 64 + (N_of_ascii c - 128))%N rest
  end.

Definition code_point (chunk : string) : N :=
  match chunk with
  | EmptyString => 0%N
  | String c rest => continuation_bits (lead_bits (N_of_ascii c)) rest
  end.

(** The code points above ASCII for which [str.isprintable] is false, as
    closed ranges: the categories Cc, Cf, Cs, Co, Cn, Zl, Zp and Zs of the
    Unicode database of CPython 3.11 (Unicode 14.0). *)
Definition not_printable_ranges : list (N * N) :=
  [(128, 160); (173, 173); (888, 889); (896, 899); (907, 907); (909, 909);
   (930, 930); (1328, 1328); (1367, 1368); (1419, 1420); (1424, 1424);
   (1480, 1487); (1515, 1518); (1525, 1541); (1564, 1564); (1757, 1757);
   (1806, 1807); (1867, 1868); (1970, 1983); (2043, 2044); (2094, 2095);
   (2111, 2111); (2140, 2141); (2143, 2143); (2155, 2159); (2191, 2199);
   (2274, 2274); (2436, 2436); (2445, 2446); (2449, 2450); (2473, 2473);
   (2481, 2481); (2483, 2485); (2490, 2491); (2501, 2502); (2505, 2506);
   (2511, 2518); (2520, 2523); (2526, 2526); (2532, 2533); (2559, 2560);
   (2564, 2564); (2571, 2574); (2577, 2578); (2601, 2601); (2609, 2609);
   (2612, 2612); (2615, 2615); (2618, 2619); (2621, 2621); (2627, 2630);
   (2633, 2634); (2638, 2640); (2642, 2648); (2653, 2653); (2655, 2661);
   (2679, 2688); (2692, 2692); (2702, 2702); (2706, 2706); (2729, 2729);
   (2737, 2737); (2740, 2740); (2746, 2747); (2758, 2758); (2762, 2762);
   (2766, 2767); (2769, 2783); (2788, 2789); (2802, 2808); (2816, 2816);
   (2820, 2820); (2829, 2830); (2833, 2834); (2857, 2857); (2865, 2865);
   (2868, 2868); (2874, 2875); (2885, 2886); (2889, 2890); (2894, 2900);
   (2904, 2907); (2910, 2910); (2916, 2917); (2936, 2945); (2948, 2948);
   (2955, 2957); (2961, 2961); (2966, 2968); (2971, 2971); (2973, 2973);
   (2976, 2978); (2981, 2983); (2987, 2989); (3002, 3005); (3011, 3013);
   (3017, 3017); (3022, 3023); (3025, 3030); (3032, 3045); (3067, 3071);
   (3085, 3085); (3089, 3089); (3113, 3113); (3130, 3131); (3141, 3141);
   (3145, 3145); (3150, 3156); (3159, 3159); (3163, 3164); (3166, 3167);
   (3172, 3173); (3184, 3190); (3213, 3213); (3217, 3217); (3241, 3241);
   (3252, 3252); (3258, 3259); (3269, 3269); (3273, 3273); (3278, 3284);
   (3287, 3292); (3295, 3295); (3300, 3301); (3312, 3312); (3315, 3327);
   (3341, 3341); (3345, 3345); (3397, 3397); (3401, 3401); (3408, 3411);
   (3428, 3429); (3456, 3456); (3460, 3460); (3479, 3481); (3506, 3506);
   (3516, 3516); (3518, 3519); (3527, 3529); (3531, 3534); (3541, 3541);
   (3543, 3543); (3552, 3557); (3568, 3569); (3573, 3584); (3643, 3646);
   (3676, 3712); (3715, 3715); (3717, 3717); (3723, 3723); (3748, 3748);
   (3750, 3750); (3774, 3775); (3781, 3781); (3783, 3783); (3790, 3791);
   (3802, 3803); (3808, 3839); (3912, 3912); (3949, 3952); (3992, 3992);
   (4029, 4029); (4045, 4045); (4059, 4095); (4294, 4294); (4296, 4300);
   (4302, 4303); (4681, 4681); (4686, 4687); (4695, 4695); (4697, 4697);
   (4702, 4703); (4745, 4745); (4750, 4751); (4785, 4785); (4790, 4791);
   (4799, 4799); (4801, 4801); (4806, 4807); (4823, 4823); (4881, 4881);
   (4886, 4887); (4955, 4956); (4989, 4991); (5018, 5023); (5110, 5111);
   (5118, 5119); (5760, 5760); (5789, 5791); (5881, 5887); (5910, 5918);
   (5943, 5951); (5972, 5983); (5997, 5997); (6001, 6001); (6004, 6015);
   (6110, 6111); (6122, 6127); (6138, 6143); (6158, 6158); (6170, 6175);
   (6265, 6271); (6315, 6319); (6390, 6399); (6431, 6431); (6444, 6447);
   (6460, 6463); (6465, 6467); (6510, 6511); (6517, 6527); (6572, 6575);
   (6602, 6607); (6619, 6621); (6684, 6685); (6751, 6751); (6781, 6782);
   (6794, 6799); (6810, 6815); (6830, 6831); (6863, 6911); (6989, 6991);
   (7039, 7039); (7156, 7163); (7224, 7226); (7242, 7244); (7305, 7311);
   (7355, 7356); (7368, 7375); (7419, 7423); (7958, 7959); (7966, 7967);
   (8006, 8007); (8014, 8015); (8024, 8024); (8026, 8026); (8028, 8028);
   (8030, 8030); (8062, 8063); (8117, 8117); (8133, 8133); (8148, 8149);
   (8156, 8156); (8176, 8177); (8181, 8181); (8191, 8207); (8232, 8239);
   (8287, 8303); (8306, 8307); (8335, 8335); (8349, 8351); (8385, 8399);
   (8433, 8447); (8588, 8591); (9255, 9279); (9291, 9311); (11124, 11125);
   (11158, 11158); (11508, 11512); (11558, 11558); (11560, 11564);
   (11566, 11567); (11624, 11630); (11633, 11646); (11671, 11679);
   (11687, 11687); (11695, 11695); (11703, 11703); (11711, 11711);
   (11719, 11719); (11727, 11727); (11735, 11735); (11743, 11743);
   (11870, 11903); (11930, 11930); (12020, 12031); (12246, 12271);
   (12284, 12288); (12352, 12352); (12439, 12440); (12544, 12548);
   (12592, 12592); (12687, 12687); (12772, 12783); (12831, 12831);
   (42125, 42127); (42183, 42191); (42540, 42559); (42744, 42751);
   (42955, 42959); (42962, 42962); (42964, 42964); (42970, 42993);
   (43053, 43055); (43066, 43071); (43128, 43135); (43206, 43213);
   (43226, 43231); (43348, 43358); (43389, 43391); (43470, 43470);
   (43482, 43485); (43519, 43519); (43575, 43583); (43598, 43599);
   (43610, 43611); (43715, 43738); (43767, 43776); (43783, 43784);
   (43791, 43792); (43799, 43807); (43815, 43815); (43823, 43823);
   (43884, 43887); (44014, 44015); (44026, 44031); (55204, 55215);
   (55239, 55242); (55292, 63743); (64110, 64111); (64218, 64255);
   (64263, 64274); (64280, 64284); (64311, 64311); (64317, 64317);
   (64319, 64319); (64322, 64322); (64325, 64325); (64451, 64466);
   (64912, 64913); (64968, 64974); (64976, 65007); (65050, 65055);
   (65107, 65107); (65127, 65127); (65132, 65135); (65141, 65141);
   (65277, 65280); (65471, 65473); (65480, 65481); (65488, 65489);
   (65496, 65497); (65501, 65503); (65511, 65511); (65519, 65531);
   (65534, 65535); (65548, 65548); (65575, 65575); (65595, 65595);
   (65598, 65598); (65614, 65615); (65630, 65663); (65787, 65791);
   (65795, 65798); (65844, 65846); (65935, 65935); (65949, 65951);
   (65953, 65999); (66046, 66175); (66205, 66207); (66257, 66271);
   (66300, 66303); (66340, 66348); (66379, 66383); (66427, 66431);
   (66462, 66462); (66500, 66503); (66518, 66559); (66718, 66719);
   (66730, 66735); (66772, 66775); (66812, 66815); (66856, 66863);
   (66916, 66926); (66939, 66939); (66955, 66955); (66963, 66963);
   (66966, 66966); (66978, 66978); (66994, 66994); (67002, 67002);
   (67005, 67071); (67383, 67391); (67414, 67423); (67432, 67455);
   (67462, 67462); (67505, 67505); (67515, 67583); (67590, 67591);
   (67593, 67593); (67638, 67638); (67641, 67643); (67645, 67646);
   (67670, 67670); (67743, 67750); (67760, 67807); (67827, 67827);
   (67830, 67834); (67868, 67870); (67898, 67902); (67904, 67967);
   (68024, 68027); (68048, 68049); (68100, 68100); (68103, 68107);
   (68116, 68116); (68120, 68120); (68150, 68151); (68155, 68158);
   (68169, 68175); (68185, 68191); (68256, 68287); (68327, 68330);
   (68343, 68351); (68406, 68408); (68438, 68439); (68467, 68471);
   (68498, 68504); (68509, 68520); (68528, 68607); (68681, 68735);
   (68787, 68799); (68851, 68857); (68904, 68911); (68922, 69215);
   (69247, 69247); (69290, 69290); (69294, 69295); (69298, 69375);
   (69416, 69423); (69466, 69487); (69514, 69551); (69580, 69599);
   (69623, 69631); (69710, 69713); (69750, 69758); (69821, 69821);
   (69827, 69839); (69865, 69871); (69882, 69887); (69941, 69941);
   (69960, 69967); (70007, 70015); (70112, 70112); (70133, 70143);
   (70162, 70162); (70207, 70271); (70279, 70279); (70281, 70281);
   (70286, 70286); (70302, 70302); (70314, 70319); (70379, 70383);
   (70394, 70399); (70404, 70404); (70413, 70414); (70417, 70418);
   (70441, 70441); (70449, 70449); (70452, 70452); (70458, 70458);
   (70469, 70470); (70473, 70474); (70478, 70479); (70481, 70486);
   (70488, 70492); (70500, 70501); (70509, 70511); (70517, 70655);
   (70748, 70748); (70754, 70783); (70856, 70863); (70874, 71039);
   (71094, 71095); (71134, 71167); (71237, 71247); (71258, 71263);
   (71277, 71295); (71354, 71359); (71370, 71423); (71451, 71452);
   (71468, 71471); (71495, 71679); (71740, 71839); (71923, 71934);
   (71943, 71944); (71946, 71947); (71956, 71956); (71959, 71959);
   (71990, 71990); (71993, 71994); (72007, 72015); (72026, 72095);
   (72104, 72105); (72152, 72153); (72165, 72191); (72264, 72271);
   (72355, 72367); (72441, 72703); (72713, 72713); (72759, 72759);
   (72774, 72783); (72813, 72815); (72848, 72849); (72872, 72872);
   (72887, 72959); (72967, 72967); (72970, 72970); (73015, 73017);
   (73019, 73019); (73022, 73022); (73032, 73039); (73050, 73055);
   (73062, 73062); (73065, 73065); (73103, 73103); (73106, 73106);
   (73113, 73119); (73130, 73439); (73465, 73647); (73649, 73663);
   (73714, 73726); (74650, 74751); (74863, 74863); (74869, 74879);
   (75076, 77711); (77811, 77823); (78895, 82943); (83527, 92159);
   (92729, 92735); (92767, 92767); (92778, 92781); (92863, 92863);
   (92874, 92879); (92910, 92911); (92918, 92927); (92998, 93007);
   (93018, 93018); (93026, 93026); (93048, 93052); (93072, 93759);
   (93851, 93951); (94027, 94030); (94088, 94094); (94112, 94175);
   (94181, 94191); (94194, 94207); (100344, 100351); (101590, 101631);
   (101641, 110575); (110580, 110580); (110588, 110588); (110591, 110591);
   (110883, 110927); (110931, 110947); (110952, 110959); (111356, 113663);
   (113771, 113775); (113789, 113791); (113801, 113807); (113818, 113819);
   (113824, 118527); (118574, 118575); (118599, 118607); (118724, 118783);
   (119030, 119039); (119079, 119080); (119155, 119162); (119275, 119295);
   (119366, 119519); (119540, 119551); (119639, 119647); (119673, 119807);
   (119893, 119893); (119965, 119965); (119968, 119969); (119971, 119972);
   (119975, 119976); (119981, 119981); (119994, 119994); (119996, 119996);
   (120004, 120004); (120070, 120070); (120075, 120076); (120085, 120085);
   (120093, 120093); (120122, 120122); (120127, 120127); (120133, 120133);
   (120135, 120137); (120145, 120145); (120486, 120487); (120780, 120781);
   (121484, 121498); (121504, 121504); (121520, 122623); (122655, 122879);
   (122887, 122887); (122905, 122906); (122914, 122914); (122917, 122917);
   (122923, 123135); (123181, 123183); (123198, 123199); (123210, 123213);
   (123216, 123535); (123567, 123583); (123642, 123646); (123648, 124895);
   (124903, 124903); (124908, 124908); (124911, 124911); (124927, 124927);
   (125125, 125126); (125143, 125183); (125260, 125263); (125274, 125277);
   (125280, 126064); (126133, 126208); (126270, 126463); (126468, 126468);
   (126496, 126496); (126499, 126499); (126501, 126502); (126504, 126504);
   (126515, 126515); (126520, 126520); (126522, 126522); (126524, 126529);
   (126531, 126534); (126536, 126536); (126538, 126538); (126540, 126540);
   (126544, 126544); (126547, 126547); (126549, 126550); (126552, 126552);
   (126554, 126554); (126556, 126556); (126558, 126558); (126560, 126560);
   (126563, 126563); (126565, 126566); (126571, 126571); (126579, 126579);
   (126584, 126584); (126589, 126589); (126591, 126591); (126602, 126602);
   (126620, 126624); (126628, 126628); (126634, 126634); (126652, 126703);
   (126706, 126975); (127020, 127023); (127124, 127135); (127151, 127152);
   (127168, 127168); (127184, 127184); (127222, 127231); (127406, 127461);
   (127491, 127503); (127548, 127551); (127561, 127567); (127570, 127583);
   (127590, 127743); (128728, 128732); (128749, 128751); (128765, 128767);
   (128884, 128895); (128985, 128991); (129004, 129007); (129009, 129023);
   (129036, 129039); (129096, 129103); (129114, 129119); (129160, 129167);
   (129198, 129199); (129202, 129279); (129620, 129631); (129646, 129647);
   (129653, 129655); (129661, 129663); (129671, 129679); (129709, 129711);
   (129723, 129727); (129734, 129743); (129754, 129759); (129768, 129775);
   (129783, 129791); (129939, 129939); (129995, 130031); (130042, 131071);
   (173792, 173823); (177977, 177983); (178206, 178207); (183970, 183983);
   (191457, 194559); (195102, 196607); (201547, 917759); (918000, 1114111)]%N.

Definition printable (cp : N) : bool :=
  negb (existsb (fun r => (fst r <=? cp)%N && (cp <=? snd r)%N) not_printable_ranges).

Fixpoint hex_digits (width : nat) (n : N) : string :=
  match width with
  | O => EmptyString
  | S w => hex_digits w (n / 16)%N ++
           String (hex_digit (N.to_nat (n mod 16)%N)) EmptyString
  end.

(** One character of a [repr]: an ASCII character by [repr_char]; a code
    point above ASCII as it is when printable, and otherwise as the escape
    with two, four or eight hexadecimal digits. *)
Definition repr_chunk (quote : ascii) (chunk : string) : string :=
  match chunk with
  | String c EmptyString => repr_char quote c
  | _ =>
      let cp := code_point chunk in
      if printable cp then chunk
      else if (cp <? 256)%N then "\x" ++ hex_digits 2 cp
      else if (cp <? 65536)%N then "\u" ++ hex_digits 4 cp
      else "\U" ++ hex_digits 8 cp
  end.

Definition escape (quote : ascii) (s : string) : string :=
  String.concat EmptyString (map (repr_chunk quote) (codepoints s)).

(** [repr] of a [str]: single quotes unless the text has a single quote and
    no double quote; the quote, the backslash, the ASCII control characters
    and the code points that are not printable are escaped. *)
Definition str_repr (s : string) : string :=
  let quote := if has_char quote1 s && negb (has_char quote2 s) then quote2 else quote1 in
  String quote (escape quote s ++ String quote EmptyString).

Fixpoint py_repr (v : value) : string :=
  match v with
  | VNone => "None"
  | VBool true => "True"
  | VBool false => "False"
  | VInt n => string_of_Z n
  | VFloat f => float_repr f
  | VStr s => str_repr s
  | VList items => "[" ++ join ", " (map py_repr items) ++ "]"
  | VDict d =>
      "{" ++ join ", " (map (fun kv => let '(k, x) := kv in
                                       str_repr k ++ ": " ++ py_repr x) d) ++ "}"
  end.

(** [str(v)], which is also how an f-string field [{v}] is rendered. *)
Definition py_str (v : value) : string :=
  match v with
  | VStr s => s
  | _ => py_repr v
  end.

(** ** The HTTP transport *)

(** One call of [client.get]: the URL argument as passed, and the keyword
    arguments [headers] and [timeout] when given. *)
Record request := mk_request {
  req_url : value;
  req_headers : list (string * string);
  req_timeout : option pyfloat
}.

(** An [httpx.Response] as the source reads it.  [json_body] is the outcome
    of [response.json()]: [None] when the body does not decode. *)
Record response := mk_response {
  status_code : Z;
  json_body : option value
}.

Inductive get_outcome :=
| GetRaised (e : exn)
| GetReturned (r : response).

(** The remote side: what the [n]-th request of a tool call meets. *)
Definition transport := nat -> request -> get_outcome.

(** ** Tool computations: exceptions and the request log *)

Definition M (A : Type) : Type := list request -> result A * list request.

Definition ret {A} (a : A) : M A := fun log => (Ok a, log).

Definition bind {A B} (m : M A) (k : A -> M B) : M B :=
  fun log =>
    match m log with
    | (Ok a, log') => k a log'
    | (Raise e, log') => (Raise e, log')
    end.

Definition lift {A} (r : result A) : M A := fun log => (r, log).

(** [try: body except Exception: handler]. *)
Definition try_except {A} (body : M A) (handler : exn -> M A) : M A :=
  fun log =>
    match body log with
    | (Ok a, log') => (Ok a, log')
    | (Raise e, log') => handler e log'
    end.

Declare Scope tool_scope.
Delimit Scope tool_scope with tool.
Notation "x <- m ;; k" := (bind m (fun x => k))
  (at level 61, m at next level, right associativity) : tool_scope.

Definition client_get (w : transport) (rq : request) : M response :=
  fun log =>
    (match w (List.length log) rq with
     | GetRaised e => Raise e
     | GetReturned r => Ok r
     end, (log ++ [rq])%list).

(** Modelled from the spec: [Response.raise_for_status] belongs to the httpx
    library, which is not part of the repository; a status outside 2xx is a
    failure. *)
Definition raise_for_status (r : response) : result unit :=
  if (200 <=? status_code r)%Z && (status_code r <=? 299)%Z then Ok tt
  else Raise (HTTPStatusError (status_code r)).

Definition response_json (r : response) : result value :=
  match json_body r with
  | Some v => Ok v
  | None => Raise JSONDecodeError
  end.

(** [a or b] on conditions that may raise: [b] is evaluated only when [a] is
    false. *)
Definition or_else (a b : result bool) : result bool :=
  (x <- a ;; if x then Ok true else b)%result.

Definition py_not_in (k : string) (v : value) : result bool :=
  (b <- py_in k v ;; Ok (negb b))%result.

(** A comprehension [[f(x) for x in items]]. *)
Fixpoint traverse {A B} (f : A -> result B) (items : list A) : result (list B) :=
  match items with
  | [] => Ok []
  | x :: rest =>
      (y <- f x ;; ys <- traverse f rest ;; Ok (y :: ys))%result
  end.

(** A [for] loop whose body updates a local state. *)
Fixpoint for_each {A S} (items : list A) (body : A -> S -> result S) (s : S)
  : result S :=
  match items with
  | [] => Ok s
  | x :: rest => (s' <- body x s ;; for_each rest body s')%result
  end.

(** ** The module *)

Definition API_BASE_URL : string := "https://api.weather.gov".
Definition USER_AGENT : string := "weather-app/1.0".

Definition nws_request (url : value) : request :=
  {| req_url := url;
     req_headers := [("User-Agent", USER_AGENT); ("Accept", "application/geo+json")];
     req_timeout := Some (mk_float "30.0" false) |}.

(** The [async with httpx.AsyncClient()] block only scopes the client; the
    one effect inside it is the call of [client.get]. *)
Definition make_nws_request (w : transport) (url : value) : M value :=
  try_except
    (response <- client_get w (nws_request url) ;;
     _ <- lift (raise_for_status response) ;;
     lift (response_json response))%tool
    (fun _ => ret VNone).

(** The f-string of [format_alert], with its five fields as holes. *)
Definition alert_text (event area severity description instructions : string)
  : string :=
  LF ++ "        Event: " ++ event ++
  LF ++ "        Area: " ++ area ++
  LF ++ "        Severity: " ++ severity ++
  LF ++ "        Description: " ++ description ++
  LF ++ "        Instructions: " ++ instructions ++
  LF ++ "        ".

Definition format_alert (feature : value) : result string :=
  (props <- subscript feature "properties" ;;
   event <- py_get props "event" "Unknown" ;;
   area <- py_get props "areaDesc" "Unknown" ;;
   severity <- py_get props "severity" "Unknown" ;;
   description <- py_get props "description" "No description available" ;;
   instruction <- py_get props "instruction" "No specific instructions provided" ;;
   Ok (alert_text (py_str event) (py_str area) (py_str severity)
         (py_str description) (py_str instruction)))%result.

Definition alerts_url (state : string) : string :=
  API_BASE_URL ++ "/alerts/active/area/" ++ state.

Definition NO_ALERTS_FOUND : string := "No alerts found or unable to fetch alerts".
Definition NO_ACTIVE_ALERTS : string :=
  "No active weather alerts for the specified state.".
Definition alert_separator : string := LF ++ "----" ++ LF.

Definition get_weather_alerts (w : transport) (state : string) : M string :=
  (let url := alerts_url state in
   data <- make_nws_request w (VStr url) ;;
   missing <- lift (or_else (Ok (negb (truthy data))) (py_not_in "features" data)) ;;
   if missing : bool then ret NO_ALERTS_FOUND
   else
     features <- lift (subscript data "features") ;;
     if negb (truthy features) then ret NO_ACTIVE_ALERTS
     else
       features <- lift (subscript data "features") ;;
       items <- lift (py_iter features) ;;
       alerts <- lift (traverse format_alert items) ;;
       ret (join alert_separator alerts))%tool.

(** The four bytes the source file has between the temperature and its unit:
    a degree sign that was encoded twice, two code points in the text. *)
Definition degree_sign : string :=
  String "195" (String "130" (String "194" (String "176" EmptyString))).

(** The f-string of the loop body of [get_forecast], with its six fields as
    holes. *)
Definition forecast_text (name temperature unit wind_speed wind_direction detailed : string)
  : string :=
  LF ++ "            " ++ name ++ ":" ++
  LF ++ "            Temperature: " ++ temperature ++ degree_sign ++ unit ++
  LF ++ "            Wind: " ++ wind_speed ++ " " ++ wind_direction ++
  LF ++ "            Forecast: " ++ detailed ++
  LF ++ "        ".

Definition forecast_of_period (period : value) : result string :=
  (name <- subscript period "name" ;;
   temperature <- subscript period "temperature" ;;
   unit <- subscript period "temperatureUnit" ;;
   wind_speed <- subscript period "windSpeed" ;;
   wind_direction <- subscript period "windDirection" ;;
   detailed <- subscript period "detailedForecast" ;;
   Ok (forecast_text (py_str name) (py_str temperature) (py_str unit)
         (py_str wind_speed) (py_str wind_direction) (py_str detailed)))%result.

(** The body of the loop of [get_forecast]: format the period and append the
    text to [forecasts]. *)
Definition append_forecast (period : value) (forecasts : list string)
  : result (list string) :=
  (forecast <- forecast_of_period period ;;
   Ok (forecasts ++ [forecast])%list)%result.

Definition points_url (lat lon : pyfloat) : string :=
  API_BASE_URL ++ "/points/" ++ float_repr lat ++ "," ++ float_repr lon ++ "/forecast".

Definition UNABLE_TO_FETCH : string := "Unable to fetch forecast data.".
Definition forecast_separator : string := LF ++ "---" ++ LF.

Definition get_forecast (w : transport) (lat lon : pyfloat) : M string :=
  (let url := points_url lat lon in
   data <- make_nws_request w (VStr url) ;;
   missing <- lift (or_else (Ok (negb (truthy data)))
                     (or_else (py_not_in "properties" data)
                        (props <- subscript data "properties" ;;
                         py_not_in "forecast" props)%result)) ;;
   if missing : bool then ret UNABLE_TO_FETCH
   else
     props <- lift (subscript data "properties") ;;
     forecast_url <- lift (subscript props "forecast") ;;
     forecast_data <- make_nws_request w forecast_url ;;
     if negb (truthy forecast_data) then ret UNABLE_TO_FETCH
     else
       props <- lift (subscript forecast_data "properties") ;;
       periods <- lift (subscript props "periods") ;;
       first3 <- lift (slice3 periods) ;;
       items <- lift (py_iter first3) ;;
       forecasts <- lift (for_each items append_forecast []) ;;
       ret (join forecast_separator forecasts))%tool.

Definition indian_forecast_url (lat lon : pyfloat) : string :=
  "https://api.open-meteo.com/v1/forecast?latitude=" ++ float_repr lat ++
  "&longitude=" ++ float_repr lon ++ "&hourly=temperature_2m".

Definition get_indian_forecast (w : transport) (lat lon : pyfloat) : M string :=
  (let url := indian_forecast_url lat lon in
   resp <- client_get w (mk_request (VStr url) [] None) ;;
   data <- lift (response_json resp) ;;
   ret (py_str data))%tool.

Definition my_tool (input_string : string) : M string :=
  ret ("This is a test tool that returns the input string: " ++ input_string).

(** * Vocabulary of the properties *)

Arguments NO_ALERTS_FOUND : simpl never.
Arguments NO_ACTIVE_ALERTS : simpl never.
Arguments UNABLE_TO_FETCH : simpl never.
Arguments alert_separator : simpl never.
Arguments forecast_separator : simpl never.
Arguments alert_text : simpl never.
Arguments forecast_text : simpl never.
Arguments alerts_url : simpl never.
Arguments points_url : simpl never.
Arguments indian_forecast_url : simpl never.
Arguments nws_request : simpl never.

(** ** [str] written out *)

(** The [repr] of a string: between single quotes, or between double quotes
    when the text holds a single quote and no double quote, with each of its
    characters escaped as [repr] escapes it. *)
Definition quoted (s : string) : string :=
  let q := if has_char "'" s && negb (has_char "034" s) then "034"%char else "'"%char in
  String q (String.concat EmptyString (map (repr_chunk q) (codepoints s))
            ++ String q EmptyString).

(** The [repr] of a decoded value: the constants and numbers by their names
    and digits, a string quoted, a list and a record in brackets, with the
    parts in their order, separated by a comma and a space. *)
Fixpoint repr_of (v : value) : string :=
  match v with
  | VNone => "None"
  | VBool true => "True"
  | VBool false => "False"
  | VInt n => NilZero.string_of_int (Z.to_int n)
  | VFloat f => float_repr f
  | VStr s => quoted s
  | VList items => "[" ++ String.concat ", " (map repr_of items) ++ "]"
  | VDict d =>
      "{" ++ String.concat ", "
               (map (fun kv => quoted (fst kv) ++ ": " ++ repr_of (snd kv)) d)
          ++ "}"
  end.

(** The text of a decoded value, as [str] gives it: a string as it is, and
    any other value by its [repr]. *)
Definition text_of (v : value) : string :=
  match v with
  | VStr s => s
  | _ => repr_of v
  end.

(** What a fetch hands back, read off the outcome of its one request. *)
Definition fetch_result (o : get_outcome) : value :=
  match o with
  | GetRaised _ => VNone
  | GetReturned r =>
      if (200 <=? status_code r)%Z && (status_code r <=? 299)%Z then
        match json_body r with
        | Some v => v
        | None => VNone
        end
      else VNone
  end.

(** The text a field of an alert contributes: the [str] of the value bound
    to the key, and the fallback text when the key is absent. *)
Definition field_or (p : dict) (k fallback : string) : string :=
  match dict_get k p with
  | Some v => py_str v
  | None => fallback
  end.

(** How one hole [x] of the alert text relates to the key [k] of the
    properties [p] and its fallback text [fb]. *)
Definition shown (p : dict) (k fb x : string) : Prop :=
  (dict_get k p = None -> x = fb) /\
  (forall v, dict_get k p = Some v -> x = text_of v) /\
  (dict_get k p = Some VNone -> x = "None" /\ x <> fb).

(** The value under [features], when there is one, is a sequence. *)
Definition features_is_sequence (data : value) : Prop :=
  forall d v, data = VDict d -> dict_get "features" d = Some v ->
              exists fs, v = VList fs.

(** A transport that answers the [n]-th request with status 200 and the
    [n]-th of the given bodies, and fails once they are used up. *)
Definition serve (bodies : list value) : transport :=
  fun n _ =>
    match nth_error bodies n with
    | Some v => GetReturned (mk_response 200 (Some v))
    | None => GetRaised TransportError
    end.

(** The value at [properties.forecast] of a points response, if the response
    is a record whose [properties] is a record with that key. *)
Definition forecast_link (data : value) : option value :=
  match data with
  | VDict d =>
      match dict_get "properties" d with
      | Some (VDict p) => dict_get "forecast" p
      | _ => None
      end
  | _ => None
  end.


(** What [get_forecast] does with a forecast response that counts as true. *)
Definition forecast_body (forecast_data : value) : result string :=
  (props <- subscript forecast_data "properties" ;;
   periods <- subscript props "periods" ;;
   first3 <- slice3 periods ;;
   items <- py_iter first3 ;;
   forecasts <- for_each items append_forecast [] ;;
   Ok (join forecast_separator forecasts))%result.

(** Sample data for the examples. *)
Definition flood_feature : dict :=
  [("type", VStr "Feature");
   ("properties", VDict [("event", VStr "Flood Warning"); ("severity", VStr "Severe")])].

Definition null_feature : dict :=
  [("properties", VDict [("event", VNone); ("instruction", VNone)])].

Definition sample_lat : pyfloat := mk_float "39.95" false.
Definition sample_lon : pyfloat := mk_float "-75.16" false.

Definition sample_points : value :=
  VDict [("properties",
          VDict [("forecast", VStr "https://api.weather.gov/gridpoints/PHI/49,75/forecast")])].

Definition sample_period (name : string) (temperature : Z) : value :=
  VDict [("name", VStr name); ("temperature", VInt temperature);
         ("temperatureUnit", VStr "F"); ("windSpeed", VStr "5 mph");
         ("windDirection", VStr "SW"); ("detailedForecast", VStr "Clear.")].

(** Case analysis on every test and match of the goal. *)
Ltac crunch :=
  repeat first
    [ progress cbn
    | discriminate
    | match goal with
      | |- context [if ?b then _ else _] => destruct b eqn:?
      | |- context [match ?x with _ => _ end] => destruct x eqn:?
      end ].

(** ** Vocabulary of the further properties *)


(** The keys [format_alert] reads from the properties, and the keys the
    loop of [get_forecast] reads from a period, in the order of reading. *)
Definition alert_keys : list string :=
  ["event"; "areaDesc"; "severity"; "description"; "instruction"].

Definition period_keys : list string :=
  ["name"; "temperature"; "temperatureUnit"; "windSpeed"; "windDirection";
   "detailedForecast"].

(** The first of [keys] that the record [p] does not bind. *)
Definition first_missing (keys : list string) (p : dict) : option string :=
  find (fun k => match dict_get k p with Some _ => false | None => true end) keys.


Definition bare_period : dict :=
  [("name", VStr "Tonight"); ("temperature", VInt 55); ("windSpeed", VStr "5 mph")].

(** ** Texts spelled out *)

(** What the key [k] of the properties [p] contributes to an alert: the text
    of the value bound to it, and the fallback [fb] when nothing is. *)
Definition alert_field (p : dict) (k fb : string) : string :=
  match dict_get k p with
  | Some v => text_of v
  | None => fb
  end.

(** The feature is a record whose [properties] is a record. *)
Definition has_properties_record (feature : value) : Prop :=
  exists f p, feature = VDict f /\ dict_get "properties" f = Some (VDict p).

(** The block of text of one alert feature. *)
Definition alert_block (feature : value) : string :=
  match feature with
  | VDict f =>
      match dict_get "properties" f with
      | Some (VDict p) => "
        Event: " ++ alert_field p "event" "Unknown" ++ "
        Area: " ++ alert_field p "areaDesc" "Unknown" ++ "
        Severity: " ++ alert_field p "severity" "Unknown" ++ "
        Description: " ++ alert_field p "description" "No description available" ++ "
        Instructions: " ++ alert_field p "instruction" "No specific instructions provided" ++ "
        "
      | _ => EmptyString
      end
  | _ => EmptyString
  end.

(** The period is a record that binds each of the six keys. *)
Definition complete_period (period : value) : Prop :=
  exists p, period = VDict p /\
            Forall (fun k => dict_get k p <> None) period_keys.

Definition period_field (period : value) (k : string) : string :=
  match period with
  | VDict p =>
      match dict_get k p with
      | Some v => text_of v
      | None => EmptyString
      end
  | _ => EmptyString
  end.

(** The block of text of one forecast period; the two characters before the
    unit are the ones of the source file. *)
Definition period_block (period : value) : string :=
  "
            " ++ period_field period "name" ++ ":
            Temperature: " ++ period_field period "temperature" ++ "Â°"
              ++ period_field period "temperatureUnit" ++ "
            Wind: " ++ period_field period "windSpeed" ++ " "
              ++ period_field period "windDirection" ++ "
            Forecast: " ++ period_field period "detailedForecast" ++ "
        ".

(** The values that count as false. *)
Definition counts_as_false (v : value) : Prop :=
  v = VList [] \/ v = VNone \/ v = VBool false \/ v = VInt 0 \/
  (exists f, v = VFloat f /\ float_is_zero f = true) \/
  v = VStr EmptyString \/ v = VDict [].

(** The values that have no membership test: null, a truth value, a
    number. *)
Definition no_membership (v : value) : Prop :=
  match v with
  | VNone | VBool _ | VInt _ | VFloat _ => True
  | _ => False
  end.

(** The request the helper makes for a URL, spelled out. *)
Definition nws_get (url : string) : request :=
  mk_request (VStr url)
    [("User-Agent", "weather-app/1.0"); ("Accept", "application/geo+json")]
    (Some (mk_float "30.0" false)).


(** * Properties *)

(** ** The interpreter operations on small inputs *)

Example py_str_nested :
  py_str (VDict [("a", VList [VStr "x"; VInt (-3); VBool true; VNone])]) =
  "{'a': ['x', -3, True, None]}".
Proof. reflexivity. Qed.

Example str_repr_escapes :
  str_repr ("it's" ++ LF) = String quote2 ("it's\n" ++ String quote2 EmptyString).
Proof. reflexivity. Qed.

Example codepoints_degree_sign :
  codepoints ("5" ++ degree_sign) =
  ["5"; String "195" (String "130" EmptyString); String "194" (String "176" EmptyString)].
Proof. reflexivity. Qed.

Example in_number_raises : py_in "features" (VInt 5) = Raise TypeError.
Proof. reflexivity. Qed.

Example subscript_list_raises :
  subscript (VList [VStr "features"]) "features" = Raise TypeError.
Proof. reflexivity. Qed.

Example slice3_short : slice3 (VList [VInt 1; VInt 2]) = Ok (VList [VInt 1; VInt 2]).
Proof. reflexivity. Qed.

Example empty_record_is_false : truthy (VDict []) = false.
Proof. reflexivity. Qed.

Example str_repr_not_printable :
  str_repr ("a" ++ String "194" (String "160"
              ("b" ++ String "226" (String "128" (String "139" EmptyString))))) =
  "'a\xa0b\u200b'".
Proof. reflexivity. Qed.

Example str_repr_printable : str_repr "20 °C" = "'20 °C'".
Proof. reflexivity. Qed.

(** ** [str] and [join] spelled out *)

Lemma join_concat (sep : string) (parts : list string) :
  join sep parts = String.concat sep parts.
Proof.
  induction parts as [| p rest IH]; [reflexivity |].
  destruct rest as [| q rest]; [reflexivity |].
  change (join sep (p :: q :: rest)) with (p ++ sep ++ join sep (q :: rest))%string.
  now rewrite IH.
Qed.

Lemma py_repr_repr_of : forall v : value, py_repr v = repr_of v.
Proof.
  fix IH 1. intros [| b | n | f | s | items | d]; try reflexivity.
  - change (py_repr (VList items)) with ("[" ++ join ", " (map py_repr items) ++ "]")%string.
    cbn [repr_of]. rewrite join_concat. do 3 f_equal.
    induction items as [| x xs IHxs]; [reflexivity |].
    cbn [map]. now rewrite (IH x), IHxs.
  - change (py_repr (VDict d))
      with ("{" ++ join ", " (map (fun kv => let '(k, x) := kv in
                                       str_repr k ++ ": " ++ py_repr x) d) ++ "}")%string.
    cbn [repr_of]. rewrite join_concat. do 3 f_equal.
    induction d as [| [k x] d' IHd]; [reflexivity |].
    cbn [map fst snd]. now rewrite (IH x), IHd.
Qed.

Lemma py_str_text_of (v : value) : py_str v = text_of v.
Proof. destruct v; try reflexivity; apply py_repr_repr_of. Qed.

Lemma traverse_map {A B} (f : A -> result B) (g : A -> B) (xs : list A) :
  Forall (fun x => f x = Ok (g x)) xs -> traverse f xs = Ok (map g xs).
Proof.
  induction 1 as [| x xs Hx _ IH]; cbn; [reflexivity |].
  now rewrite Hx, IH.
Qed.

Lemma firstn_min_length {A} (xs : list A) (n : nat) :
  firstn (Nat.min (List.length xs) n) xs = firstn n xs.
Proof.
  destruct (Nat.le_ge_cases n (List.length xs)) as [H | H].
  - now rewrite (Nat.min_r _ _ H).
  - rewrite (Nat.min_l _ _ H), firstn_all. symmetry. now apply firstn_all2.
Qed.

(** ** The request helper *)

Lemma make_nws_request_run (w : transport) (url : value) (log : list request) :
  make_nws_request w url log =
  (Ok (fetch_result (w (List.length log) (nws_request url))),
   (log ++ [nws_request url])%list).
Proof.
  unfold make_nws_request, try_except, bind, client_get, lift, ret, fetch_result.
  destruct (w (List.length log) (nws_request url)) as [e | r]; [reflexivity |].
  unfold raise_for_status, response_json.
  destruct ((200 <=? status_code r)%Z && (status_code r <=? 299)%Z); [| reflexivity].
  destruct (json_body r); reflexivity.
Qed.

Lemma is_success_iff (r : response) :
  (200 <=? status_code r)%Z && (status_code r <=? 299)%Z = true <->
  (200 <= status_code r <= 299)%Z.
Proof. rewrite andb_true_iff, !Z.leb_le. tauto. Qed.

(** C7. For every URL and every outcome of the request, [make_nws_request]
    returns the decoded JSON body when the request came back with a 2xx
    status and a body that decodes, and [None] on each failure: an exception
    of the transport, a status outside 2xx, a body that does not decode.  It
    never raises, makes exactly one request, and all failures give the same
    [None]. *)
Theorem make_nws_request_fail_soft :
  forall (w : transport) (url : value) (log : list request),
    let outcome := w (List.length log) (nws_request url) in
    let run := make_nws_request w url log in
    let log' := (log ++ [nws_request url])%list in
    (forall r v, outcome = GetReturned r -> (200 <= status_code r <= 299)%Z ->
                 json_body r = Some v -> run = (Ok v, log')) /\
    (forall e, outcome = GetRaised e -> run = (Ok VNone, log')) /\
    (forall r, outcome = GetReturned r -> ~ (200 <= status_code r <= 299)%Z ->
               run = (Ok VNone, log')) /\
    (forall r, outcome = GetReturned r -> json_body r = None ->
               run = (Ok VNone, log')) /\
    (exists v, run = (Ok v, log')).
Proof.
  intros w url log outcome run log'.
  subst run log'. rewrite make_nws_request_run. fold outcome.
  repeat split.
  - intros r v -> Hs Hb. cbn. apply is_success_iff in Hs. now rewrite Hs, Hb.
  - now intros e ->.
  - intros r -> Hs. cbn.
    destruct ((200 <=? status_code r)%Z && (status_code r <=? 299)%Z) eqn:E;
      [| reflexivity].
    apply is_success_iff in E. contradiction.
  - intros r -> Hb. cbn. rewrite Hb. now destruct (_ && _).
  - eexists. reflexivity.
Qed.

Lemma make_nws_request_fail_soft_witness :
  make_nws_request
    (fun _ _ => GetReturned (mk_response 503 (Some (VDict [("detail", VStr "down")]))))
    (VStr (alerts_url "CA")) [] =
  (Ok VNone, [nws_request (VStr (alerts_url "CA"))]).
Proof.
  refine (proj1 (proj2 (proj2
            (make_nws_request_fail_soft
               (fun _ _ => GetReturned (mk_response 503 (Some (VDict [("detail", VStr "down")]))))
               (VStr (alerts_url "CA")) []))) _ eq_refl _).
  cbn. lia.
Defined.

(** ** [get_indian_forecast] *)



(** ** [format_alert] *)

Lemma format_alert_properties (f p : dict) :
  dict_get "properties" f = Some (VDict p) ->
  format_alert (VDict f) =
  Ok (alert_text (field_or p "event" "Unknown")
        (field_or p "areaDesc" "Unknown")
        (field_or p "severity" "Unknown")
        (field_or p "description" "No description available")
        (field_or p "instruction" "No specific instructions provided")).
Proof.
  intros H. unfold format_alert, subscript. rewrite H.
  unfold field_or, py_get, result_bind.
  destruct (dict_get "event" p), (dict_get "areaDesc" p),
    (dict_get "severity" p), (dict_get "description" p),
    (dict_get "instruction" p); reflexivity.
Qed.

Lemma field_or_shown (p : dict) (k fb : string) :
  fb <> "None" -> shown p k fb (field_or p k fb).
Proof.
  intros Hfb. unfold shown, field_or.
  destruct (dict_get k p) as [v |].
  - split; [discriminate |]. split.
    + intros v' [= ->]. apply py_str_text_of.
    + intros [= ->]. cbn. split; congruence.
  - split; [reflexivity |]. split; discriminate.
Qed.

Lemma field_or_alert_field (p : dict) (k fb : string) :
  field_or p k fb = alert_field p k fb.
Proof.
  unfold field_or, alert_field. destruct (dict_get k p); [apply py_str_text_of | reflexivity].
Qed.

(** C2 (as amended). For every alert feature whose [properties] is a
    record, [format_alert] returns the fixed template in which each of the
    fields event, areaDesc, severity, description and instruction shows the
    text of its value when the key is present (a string as it is) and its
    documented fallback when the key is absent; it does not raise. *)
Theorem format_alert_fallbacks :
  forall (f p : dict),
    dict_get "properties" f = Some (VDict p) ->
    format_alert (VDict f) =
    Ok ("
        Event: " ++ alert_field p "event" "Unknown" ++ "
        Area: " ++ alert_field p "areaDesc" "Unknown" ++ "
        Severity: " ++ alert_field p "severity" "Unknown" ++ "
        Description: " ++ alert_field p "description" "No description available" ++ "
        Instructions: " ++ alert_field p "instruction" "No specific instructions provided" ++ "
        ") /\
    (forall k fb, dict_get k p = None -> alert_field p k fb = fb) /\
    (forall k fb s, dict_get k p = Some (VStr s) -> alert_field p k fb = s) /\
    (forall k fb v, dict_get k p = Some v -> alert_field p k fb = text_of v).
Proof.
  intros f p H. split; [| split; [| split]].
  - rewrite (format_alert_properties f p H), !field_or_alert_field.
    unfold alert_text, LF. reflexivity.
  - intros k fb Hk. unfold alert_field. now rewrite Hk.
  - intros k fb s Hk. unfold alert_field. now rewrite Hk.
  - intros k fb v Hk. unfold alert_field. now rewrite Hk.
Qed.

Lemma format_alert_fallbacks_witness :
  format_alert (VDict flood_feature) =
  Ok "
        Event: Flood Warning
        Area: Unknown
        Severity: Severe
        Description: No description available
        Instructions: No specific instructions provided
        ".
Proof.
  exact (proj1 (format_alert_fallbacks flood_feature
                  [("event", VStr "Flood Warning"); ("severity", VStr "Severe")]
                  eq_refl)).
Defined.

(** The claim C2 as stated fails: a feature record without a [properties]
    key makes [format_alert] raise. *)
Lemma format_alert_raises_without_properties :
  format_alert (VDict [("type", VStr "Feature"); ("id", VStr "urn:oid:2.49.0.1.840.0")]) =
  Raise (KeyError "properties").
Proof. reflexivity. Qed.

(** C10. [format_alert] subscripts the feature with [properties], so a
    feature record without that key raises [KeyError]; and with a properties
    record, each field of the template shows its fallback when its key is
    absent, the text of its value when the key is present, and in particular
    the text [None], not the fallback, when the key is bound to null. *)
Theorem format_alert_null_is_not_absent :
  (forall f : dict, dict_get "properties" f = None ->
                    format_alert (VDict f) = Raise (KeyError "properties")) /\
  (forall f p : dict, dict_get "properties" f = Some (VDict p) ->
     exists e a s d i,
       format_alert (VDict f) =
       Ok ("
        Event: " ++ e ++ "
        Area: " ++ a ++ "
        Severity: " ++ s ++ "
        Description: " ++ d ++ "
        Instructions: " ++ i ++ "
        ") /\
       shown p "event" "Unknown" e /\
       shown p "areaDesc" "Unknown" a /\
       shown p "severity" "Unknown" s /\
       shown p "description" "No description available" d /\
       shown p "instruction" "No specific instructions provided" i).
Proof.
  split.
  - intros f H. unfold format_alert, subscript. now rewrite H.
  - intros f p H.
    exists (field_or p "event" "Unknown"), (field_or p "areaDesc" "Unknown"),
      (field_or p "severity" "Unknown"),
      (field_or p "description" "No description available"),
      (field_or p "instruction" "No specific instructions provided").
    split; [rewrite (format_alert_properties f p H); reflexivity |].
    split; [| split; [| split; [| split]]]; apply field_or_shown; discriminate.
Qed.

Lemma format_alert_null_is_not_absent_witness :
  format_alert (VDict null_feature) =
  Ok "
        Event: None
        Area: Unknown
        Severity: Unknown
        Description: No description available
        Instructions: None
        ".
Proof.
  destruct (proj2 format_alert_null_is_not_absent null_feature
              [("event", VNone); ("instruction", VNone)] eq_refl)
    as (e & a & s & d & i & H & He & Ha & Hs & Hd & Hi).
  destruct He as (_ & _ & He). destruct (He eq_refl) as [-> _].
  destruct Hi as (_ & _ & Hi). destruct (Hi eq_refl) as [-> _].
  destruct Ha as (Ha & _). rewrite (Ha eq_refl) in H.
  destruct Hs as (Hs & _). rewrite (Hs eq_refl) in H.
  destruct Hd as (Hd & _). rewrite (Hd eq_refl) in H.
  exact H.
Defined.

(** ** [get_weather_alerts] *)

Lemma format_alert_starts_with_LF (feature : value) (s : string) :
  format_alert feature = Ok s -> exists rest, s = String "010" rest.
Proof.
  unfold format_alert, result_bind.
  destruct (subscript feature "properties") as [props |]; [| discriminate].
  repeat match goal with
         | |- context [match py_get ?p ?k ?d with _ => _ end] =>
             destruct (py_get p k d); [| discriminate]
         end.
  intros [= <-]. unfold alert_text, LF. cbn. eexists. reflexivity.
Qed.

Lemma joined_alerts_start_with_LF (x : value) (xs : list value) (blocks : list string) :
  traverse format_alert (x :: xs) = Ok blocks ->
  exists rest, join alert_separator blocks = String "010" rest.
Proof.
  cbn. unfold result_bind.
  destruct (format_alert x) as [b |] eqn:Hb; [| discriminate].
  destruct (traverse format_alert xs) as [bs |]; [| discriminate].
  intros [= <-]. apply format_alert_starts_with_LF in Hb as [rest ->].
  destruct bs; cbn; eexists; reflexivity.
Qed.

Lemma traverse_Forall2 {A B} {f : A -> result B} {xs : list A} {ys : list B} :
  Forall2 (fun x y => f x = Ok y) xs ys -> traverse f xs = Ok ys.
Proof.
  induction 1 as [| x y xs ys Hxy _ IH]; cbn; [reflexivity |].
  now rewrite Hxy, IH.
Qed.

(** With a value under [features], the tool goes by its truth value. *)
Lemma get_weather_alerts_features {w : transport} {state : string} {d : dict}
      {v : value} {log log' : list request} :
  make_nws_request w (VStr (alerts_url state)) log = (Ok (VDict d), log') ->
  dict_get "features" d = Some v ->
  get_weather_alerts w state log =
  (if truthy v then
     (items <- py_iter v ;;
      alerts <- traverse format_alert items ;;
      Ok (join alert_separator alerts))%result
   else Ok NO_ACTIVE_ALERTS, log').
Proof.
  intros Hf Hd. unfold get_weather_alerts, bind. rewrite Hf.
  destruct d as [| kv d']; [discriminate |].
  unfold lift, or_else, py_not_in, py_in, subscript, result_bind, ret.
  cbn [truthy negb]. rewrite Hd. cbn [negb].
  destruct (truthy v); cbn [negb]; [| reflexivity].
  destruct (py_iter v); [| reflexivity].
  destruct (traverse format_alert a); reflexivity.
Qed.

(** Without a result, or with a record that has no [features] key, the tool
    gives its first fixed text. *)
Lemma get_weather_alerts_no_features {w : transport} {state : string}
      {data : value} {log log' : list request} :
  make_nws_request w (VStr (alerts_url state)) log = (Ok data, log') ->
  data = VNone \/ (exists d, data = VDict d /\ dict_get "features" d = None) ->
  get_weather_alerts w state log = (Ok NO_ALERTS_FOUND, log').
Proof.
  intros Hf Hc.
  unfold get_weather_alerts, bind. rewrite Hf.
  destruct Hc as [-> | (d & -> & Hd)]; [reflexivity |].
  unfold lift, or_else, py_not_in, py_in, result_bind, ret.
  destruct d; cbn [truthy negb]; [reflexivity |].
  now rewrite Hd.
Qed.



(** The exact condition of the second fixed text, on any decoded body: the
    fetch gave a record that binds [features] to a value that counts as
    false. *)
Lemma get_weather_alerts_no_active_iff {w : transport} {state : string}
      {data : value} {log' : list request} :
  make_nws_request w (VStr (alerts_url state)) [] = (Ok data, log') ->
  fst (get_weather_alerts w state []) = Ok NO_ACTIVE_ALERTS <->
  exists d v, data = VDict d /\ dict_get "features" d = Some v /\ truthy v = false.
Proof.
  intros Hf. split.
  - destruct data as [| b | n | f | s | items | d];
      try (unfold get_weather_alerts, bind; rewrite Hf; crunch; fail).
    destruct (dict_get "features" d) as [v |] eqn:Hd.
    + rewrite (get_weather_alerts_features Hf Hd). cbn [fst].
      destruct (truthy v) eqn:Hv; [| intros _; now exists d, v].
      unfold result_bind.
      destruct (py_iter v) as [items |] eqn:Hi; [| discriminate].
      destruct (traverse format_alert items) as [blocks |] eqn:Ht; [| discriminate].
      destruct items as [| x xs].
      * destruct v as [| | | | s | l | e]; try discriminate; cbn in Hi, Hv.
        -- destruct s as [| c s]; [discriminate |]. cbn in Hi.
           destruct (codepoints s); [discriminate |].
           destruct (starts_with_continuation s); discriminate.
        -- destruct l; [discriminate |]. discriminate.
        -- destruct e; discriminate.
      * apply joined_alerts_start_with_LF in Ht as [rest ->]. discriminate.
    + rewrite (get_weather_alerts_no_features Hf); [discriminate |].
      right. now exists d.
  - intros (d & v & -> & Hd & Hv).
    rewrite (get_weather_alerts_features Hf Hd). now rewrite Hv.
Qed.

Lemma truthy_false_iff (v : value) : truthy v = false <-> counts_as_false v.
Proof.
  unfold counts_as_false. split.
  - destruct v as [| b | n | f | s | items | d]; cbn; intros H.
    + tauto.
    + subst b. tauto.
    + apply negb_false_iff, Z.eqb_eq in H. subst n. tauto.
    + apply negb_false_iff in H. do 4 right. left. now exists f.
    + apply negb_false_iff, String.eqb_eq in H. subst s. tauto.
    + destruct items; [tauto | discriminate].
    + destruct d; [tauto | discriminate].
  - intros [-> | [-> | [-> | [-> | [(f & -> & Hf) | [-> | ->]]]]]]; cbn;
      try reflexivity.
    now rewrite Hf.
Qed.

(** C3 (as amended). [get_weather_alerts] returns the fixed text for no
    active alerts if and only if the fetch gave a record with a [features]
    key whose value counts as false: the empty sequence, and also null,
    false, zero, the empty string and the empty record. *)
Theorem get_weather_alerts_no_active_iff_false :
  forall (w : transport) (state : string) (data : value) (log' : list request),
    make_nws_request w (VStr (alerts_url state)) [] = (Ok data, log') ->
    (fst (get_weather_alerts w state []) =
     Ok "No active weather alerts for the specified state." <->
     exists d v, data = VDict d /\ dict_get "features" d = Some v /\ counts_as_false v).
Proof.
  intros w state data log' Hf.
  change "No active weather alerts for the specified state." with NO_ACTIVE_ALERTS.
  rewrite (get_weather_alerts_no_active_iff Hf). split.
  - intros (d & v & Hd & Hv & Ht). exists d, v. now rewrite <- truthy_false_iff.
  - intros (d & v & Hd & Hv & Ht). exists d, v. now rewrite truthy_false_iff.
Qed.

Lemma get_weather_alerts_no_active_iff_false_witness :
  fst (get_weather_alerts (serve [VDict [("features", VList [])]]) "CA" []) =
  Ok "No active weather alerts for the specified state.".
Proof.
  apply (get_weather_alerts_no_active_iff_false (serve [VDict [("features", VList [])]]) "CA"
           (VDict [("features", VList [])])
           [nws_get "https://api.weather.gov/alerts/active/area/CA"]).
  - reflexivity.
  - exists [("features", VList [])], (VList []). repeat split. now left.
Defined.

(** The claim C3 as stated fails: with null under [features] the tool
    returns the text for no active alerts, and what is under [features] is
    not an empty sequence. *)
Lemma get_weather_alerts_no_active_on_null :
  fst (get_weather_alerts (serve [VDict [("features", VNone)]]) "CA" []) =
  Ok "No active weather alerts for the specified state." /\
  dict_get "features" [("features", VNone)] <> Some (VList []).
Proof. split; [reflexivity | discriminate]. Qed.

(** C9 (as amended). For every non-empty sequence of features, each a
    record with a properties record, that a successful fetch gave,
    [get_weather_alerts] returns the blocks of the features, one per
    feature and in the order received, joined with the separator line of
    four dashes. *)
Theorem get_weather_alerts_formats_in_order :
  forall (w : transport) (state : string) (d : dict) (features : list value)
         (log' : list request),
    make_nws_request w (VStr (alerts_url state)) [] = (Ok (VDict d), log') ->
    dict_get "features" d = Some (VList features) ->
    features <> [] ->
    Forall has_properties_record features ->
    get_weather_alerts w state [] =
    (Ok (String.concat "
----
" (map alert_block features)), log').
Proof.
  intros w state d features log' Hf Hd Hne Hall.
  rewrite (get_weather_alerts_features Hf Hd).
  destruct features as [| x xs]; [contradiction |].
  cbn [truthy py_iter result_bind].
  assert (Hblocks : Forall (fun feature => format_alert feature = Ok (alert_block feature))
                      (x :: xs)).
  { eapply Forall_impl; [| exact Hall].
    intros feature (f & p & -> & Hp).
    rewrite (format_alert_properties f p Hp), !field_or_alert_field.
    unfold alert_block, alert_text, LF. now rewrite Hp. }
  rewrite (traverse_map format_alert alert_block _ Hblocks). cbn [result_bind].
  unfold alert_separator, LF. reflexivity.
Qed.

Lemma get_weather_alerts_formats_in_order_witness :
  get_weather_alerts
    (serve [VDict [("features", VList [VDict flood_feature; VDict null_feature])]])
    "CA" [] =
  (Ok "
        Event: Flood Warning
        Area: Unknown
        Severity: Severe
        Description: No description available
        Instructions: No specific instructions provided
        
----

        Event: None
        Area: Unknown
        Severity: Unknown
        Description: No description available
        Instructions: None
        ",
   [mk_request (VStr "https://api.weather.gov/alerts/active/area/CA")
      [("User-Agent", "weather-app/1.0"); ("Accept", "application/geo+json")]
      (Some (mk_float "30.0" false))]).
Proof.
  apply (get_weather_alerts_formats_in_order _ "CA"
           [("features", VList [VDict flood_feature; VDict null_feature])]
           [VDict flood_feature; VDict null_feature]).
  - reflexivity.
  - reflexivity.
  - discriminate.
  - repeat constructor.
    + now exists flood_feature,
        [("event", VStr "Flood Warning"); ("severity", VStr "Severe")].
    + now exists null_feature, [("event", VNone); ("instruction", VNone)].
Defined.

(** The claim C9 as stated fails: a non-empty sequence whose one feature
    has no [properties] gives no text; the [KeyError] reaches the caller. *)
Lemma get_weather_alerts_raises_on_bare_feature :
  get_weather_alerts
    (serve [VDict [("features",
                    VList [VDict [("type", VStr "Feature");
                                  ("id", VStr "urn:oid:2.49.0.1.840.0")]])]])
    "CA" [] =
  (Raise (KeyError "properties"),
   [nws_get "https://api.weather.gov/alerts/active/area/CA"]).
Proof. reflexivity. Qed.

(** ** [get_forecast] *)

Lemma for_each_append_forecast (items : list value) (acc : list string) :
  for_each items append_forecast acc =
  (blocks <- traverse forecast_of_period items ;; Ok (acc ++ blocks)%list)%result.
Proof.
  revert acc. induction items as [| x xs IH]; intros acc; cbn.
  - now rewrite app_nil_r.
  - unfold append_forecast at 1. unfold result_bind at 1 2 3.
    destruct (forecast_of_period x) as [b |]; [| reflexivity].
    rewrite IH. unfold result_bind.
    destruct (traverse forecast_of_period xs); [| reflexivity].
    now rewrite <- app_assoc.
Qed.



(** The second stage: with a forecast link, the second fetch is made with
    it, and the tool goes by the truth value of what it gives. *)
Lemma get_forecast_link {w : transport} {lat lon : pyfloat} {data u forecast_data : value}
      {log log1 log2 : list request} :
  make_nws_request w (VStr (points_url lat lon)) log = (Ok data, log1) ->
  forecast_link data = Some u ->
  make_nws_request w u log1 = (Ok forecast_data, log2) ->
  get_forecast w lat lon log =
  (if truthy forecast_data then forecast_body forecast_data else Ok UNABLE_TO_FETCH, log2).
Proof.
  intros Hf Hl Hf2. unfold get_forecast, bind. rewrite Hf.
  destruct data as [| b | n | f | s | items | d]; try discriminate.
  cbn in Hl.
  destruct (dict_get "properties" d) as [v |] eqn:Hp; [| discriminate].
  destruct v as [| b | n | f | s | items | p]; try discriminate.
  unfold lift, or_else, py_not_in, py_in, subscript, result_bind, ret.
  destruct d as [| kv d']; [discriminate |]. cbn [truthy negb].
  rewrite Hp. cbn [negb]. rewrite Hl. cbn [negb]. rewrite Hf2.
  destruct (truthy forecast_data); cbn [negb]; [| reflexivity].
  unfold forecast_body, subscript, result_bind.
  repeat match goal with
         | |- context [match ?x with _ => _ end] => destruct x; try reflexivity
         end.
Qed.



(** C5, at the input where it fails. When the first response is a record
    whose [properties] is bound to null (or to a truth value or a number),
    the test for the forecast key has nothing to search: [get_forecast]
    makes no second request, but it does not return its fixed text either;
    the [TypeError] reaches the caller. *)
Theorem get_forecast_raises_on_null_properties :
  forall (w : transport) (lat lon : pyfloat) (d : dict) (v : value)
         (log1 : list request),
    make_nws_request w (VStr (points_url lat lon)) [] = (Ok (VDict d), log1) ->
    dict_get "properties" d = Some v ->
    no_membership v ->
    get_forecast w lat lon [] = (Raise TypeError, log1).
Proof.
  intros w lat lon d v log1 Hf Hp Hv.
  unfold get_forecast, bind. rewrite Hf.
  unfold lift, or_else, py_not_in, py_in, subscript, result_bind, ret.
  destruct d as [| kv d']; [discriminate |]. cbn [truthy negb].
  rewrite Hp. cbn [negb].
  destruct v; try contradiction; reflexivity.
Qed.

Lemma get_forecast_raises_on_null_properties_witness :
  get_forecast (serve [VDict [("properties", VNone)]]) sample_lat sample_lon [] =
  (Raise TypeError, [nws_get "https://api.weather.gov/points/39.95,-75.16/forecast"]).
Proof.
  apply (get_forecast_raises_on_null_properties _ sample_lat sample_lon
           [("properties", VNone)] VNone).
  - reflexivity.
  - reflexivity.
  - exact I.
Defined.

(** C6 (as amended). For every forecast response whose period sequence has
    length [n] and whose first [min n 3] periods are records holding the six
    fields, [get_forecast] returns the blocks of exactly those periods, in
    order, joined with the separator line of three dashes: never more than
    three, and all of them, without error, when there are fewer. *)
Theorem get_forecast_first_three :
  forall (w : transport) (lat lon : pyfloat) (data u : value) (d2 p2 : dict)
         (periods : list value) (log1 log2 : list request),
    make_nws_request w (VStr (points_url lat lon)) [] = (Ok data, log1) ->
    forecast_link data = Some u ->
    make_nws_request w u log1 = (Ok (VDict d2), log2) ->
    dict_get "properties" d2 = Some (VDict p2) ->
    dict_get "periods" p2 = Some (VList periods) ->
    Forall complete_period (firstn (Nat.min (List.length periods) 3) periods) ->
    get_forecast w lat lon [] =
    (Ok (String.concat "
---
" (map period_block (firstn (Nat.min (List.length periods) 3) periods))), log2) /\
    List.length (firstn (Nat.min (List.length periods) 3) periods) =
    Nat.min (List.length periods) 3.
Proof.
  intros w lat lon data u d2 p2 periods log1 log2 Hf Hl Hf2 Hp Hps Hall.
  split.
  - rewrite firstn_min_length in *.
    rewrite (get_forecast_link Hf Hl Hf2).
    destruct d2 as [| kv d2']; [discriminate |]. cbn [truthy].
    unfold forecast_body, subscript. rewrite Hp. cbn [result_bind]. rewrite Hps.
    cbn [result_bind slice3 py_iter].
    rewrite for_each_append_forecast.
    rewrite (traverse_map forecast_of_period period_block).
    + cbn [result_bind app]. unfold forecast_separator, LF. reflexivity.
    + eapply Forall_impl; [| exact Hall].
      intros period (p & -> & Hkeys). unfold period_keys in Hkeys.
      repeat match goal with
             | H : Forall _ (_ :: _) |- _ => inversion H; clear H; subst
             end.
      unfold forecast_of_period, subscript, period_block, period_field, result_bind.
      repeat match goal with
             | H : dict_get ?k p <> None |- _ =>
                 destruct (dict_get k p); [clear H | contradiction]
             end.
      rewrite !py_str_text_of. unfold forecast_text, degree_sign, LF. reflexivity.
  - rewrite length_firstn. lia.
Qed.

Lemma get_forecast_first_three_witness :
  get_forecast
    (serve [sample_points;
            VDict [("properties",
                    VDict [("periods",
                            VList [sample_period "Tonight" 55; sample_period "Friday" 71;
                                   sample_period "Friday Night" 52;
                                   sample_period "Saturday" 68])])]])
    sample_lat sample_lon [] =
  (Ok "
            Tonight:
            Temperature: 55Â°F
            Wind: 5 mph SW
            Forecast: Clear.
        
---

            Friday:
            Temperature: 71Â°F
            Wind: 5 mph SW
            Forecast: Clear.
        
---

            Friday Night:
            Temperature: 52Â°F
            Wind: 5 mph SW
            Forecast: Clear.
        ",
   [mk_request (VStr "https://api.weather.gov/points/39.95,-75.16/forecast")
      [("User-Agent", "weather-app/1.0"); ("Accept", "application/geo+json")]
      (Some (mk_float "30.0" false));
    mk_request (VStr "https://api.weather.gov/gridpoints/PHI/49,75/forecast")
      [("User-Agent", "weather-app/1.0"); ("Accept", "application/geo+json")]
      (Some (mk_float "30.0" false))]).
Proof.
  refine (proj1 (get_forecast_first_three _ sample_lat sample_lon sample_points
                   (VStr "https://api.weather.gov/gridpoints/PHI/49,75/forecast")
                   _ _
                   [sample_period "Tonight" 55; sample_period "Friday" 71;
                    sample_period "Friday Night" 52; sample_period "Saturday" 68]
                   _ _ _ _ _ _ _ _)).
  - reflexivity.
  - reflexivity.
  - reflexivity.
  - reflexivity.
  - reflexivity.
  - repeat constructor; eexists; (split; [reflexivity |]);
      repeat constructor; discriminate.
Defined.

(** The claim C6 as stated fails: with a single period, which lacks the
    unit of the temperature, nothing is formatted and the [KeyError]
    reaches the caller. *)
Lemma get_forecast_raises_on_incomplete_period :
  get_forecast
    (serve [sample_points;
            VDict [("properties", VDict [("periods", VList [VDict bare_period])])]])
    sample_lat sample_lon [] =
  (Raise (KeyError "temperatureUnit"),
   [nws_get "https://api.weather.gov/points/39.95,-75.16/forecast";
    nws_get "https://api.weather.gov/gridpoints/PHI/49,75/forecast"]).
Proof. reflexivity. Qed.

(** C1, at the input where it fails. When the second fetch gives a
    non-empty record that has no [properties] key, [get_forecast] does not
    give its fixed text: the [KeyError] of the subscript reaches the
    caller. *)
Theorem get_forecast_raises_without_properties :
  forall (w : transport) (lat lon : pyfloat) (data u : value) (d2 : dict)
         (log1 log2 : list request),
    make_nws_request w (VStr (points_url lat lon)) [] = (Ok data, log1) ->
    forecast_link data = Some u ->
    make_nws_request w u log1 = (Ok (VDict d2), log2) ->
    d2 <> [] ->
    dict_get "properties" d2 = None ->
    get_forecast w lat lon [] = (Raise (KeyError "properties"), log2).
Proof.
  intros w lat lon data u d2 log1 log2 Hf Hl Hf2 Hne Hp.
  rewrite (get_forecast_link Hf Hl Hf2).
  destruct d2 as [| kv d2']; [contradiction |]. cbn [truthy].
  unfold forecast_body, subscript. now rewrite Hp.
Qed.

Lemma get_forecast_raises_without_properties_witness :
  get_forecast
    (serve [sample_points;
            VDict [("status", VInt 503); ("detail", VStr "Service Unavailable")]])
    sample_lat sample_lon [] =
  (Raise (KeyError "properties"),
   [nws_request (VStr (points_url sample_lat sample_lon));
    nws_request (VStr "https://api.weather.gov/gridpoints/PHI/49,75/forecast")]).
Proof.
  apply (get_forecast_raises_without_properties _ sample_lat sample_lon sample_points
           (VStr "https://api.weather.gov/gridpoints/PHI/49,75/forecast")
           [("status", VInt 503); ("detail", VStr "Service Unavailable")]
           [nws_request (VStr (points_url sample_lat sample_lon))]).
  - reflexivity.
  - reflexivity.
  - reflexivity.
  - discriminate.
  - reflexivity.
Defined.





(** ** [my_tool] *)

(** [my_tool] makes no request and returns its fixed text followed by the
    input, whatever the input. *)
Theorem my_tool_echo :
  forall (input_string : string) (log : list request),
    my_tool input_string log =
    (Ok ("This is a test tool that returns the input string: " ++ input_string), log).
Proof. reflexivity. Qed.

(** * Further properties *)

(** ** Requests and failures of the transport *)


(** In every execution, whatever comes back and whether the tool returns or
    raises, [get_weather_alerts] makes exactly one request: a GET of the
    alerts URL that ends with the state string as passed (no validation, no
    escaping), with the two fixed headers and the timeout of 30. *)
Theorem get_weather_alerts_one_request :
  forall (w : transport) (state : string) (log : list request),
    snd (get_weather_alerts w state log) =
    (log ++ [mk_request
               (VStr ("https://api.weather.gov/alerts/active/area/" ++ state))
               [("User-Agent", "weather-app/1.0"); ("Accept", "application/geo+json")]
               (Some (mk_float "30.0" false))])%list.
Proof.
  intros w state log.
  unfold get_weather_alerts, bind. rewrite make_nws_request_run.
  destruct (fetch_result _) as [| b | n | f | s | items | d]; crunch; reflexivity.
Qed.

(** In every execution, [get_indian_forecast] makes exactly one request: a
    GET of the hourly URL built from the two coordinates, without headers
    and without a timeout of its own. *)
Theorem get_indian_forecast_one_request :
  forall (w : transport) (lat lon : pyfloat) (log : list request),
    snd (get_indian_forecast w lat lon log) =
    (log ++ [mk_request
               (VStr ("https://api.open-meteo.com/v1/forecast?latitude=" ++ float_repr lat
                      ++ "&longitude=" ++ float_repr lon ++ "&hourly=temperature_2m"))
               [] None])%list.
Proof.
  intros w lat lon log.
  unfold get_indian_forecast, bind, client_get, lift, ret, response_json.
  crunch; reflexivity.
Qed.





(** ** What [format_alert] accepts and reads *)

(** [format_alert] returns a text exactly for a record whose [properties]
    is a record.  On anything else it raises: [TypeError] when the feature
    is not a record, [KeyError] when the record has no [properties], and
    [AttributeError] when [properties] is bound to something that is not a
    record (null included). *)
Theorem format_alert_outcomes :
  forall feature : value,
    ((exists s, format_alert feature = Ok s) <->
     (exists f p, feature = VDict f /\ dict_get "properties" f = Some (VDict p))) /\
    ((forall f, feature <> VDict f) -> format_alert feature = Raise TypeError) /\
    (forall f, feature = VDict f -> dict_get "properties" f = None ->
               format_alert feature = Raise (KeyError "properties")) /\
    (forall f v, feature = VDict f -> dict_get "properties" f = Some v ->
                 (forall p, v <> VDict p) ->
                 format_alert feature = Raise AttributeError).
Proof.
  intros feature.
  assert (Hnot : (forall f, feature <> VDict f) -> format_alert feature = Raise TypeError).
  { intros H. destruct feature; try reflexivity. now destruct (H entries). }
  assert (Hkey : forall f, feature = VDict f -> dict_get "properties" f = None ->
                           format_alert feature = Raise (KeyError "properties")).
  { intros f -> H. unfold format_alert, subscript. now rewrite H. }
  assert (Hattr : forall f v, feature = VDict f -> dict_get "properties" f = Some v ->
                              (forall p, v <> VDict p) ->
                              format_alert feature = Raise AttributeError).
  { intros f v -> H Hv. unfold format_alert, subscript. rewrite H.
    destruct v; try reflexivity. now destruct (Hv entries). }
  split; [| split; [exact Hnot | split; [exact Hkey | exact Hattr]]].
  split.
  - intros [s Hs].
    destruct feature as [| | | | | | f];
      try (rewrite Hnot in Hs; [discriminate | discriminate]).
    destruct (dict_get "properties" f) as [v |] eqn:Hp.
    + destruct v as [| | | | | | p];
        try (rewrite (Hattr f _ eq_refl Hp) in Hs; [discriminate | discriminate]).
      now exists f, p.
    + rewrite (Hkey f eq_refl Hp) in Hs. discriminate.
  - intros (f & p & -> & Hp). eexists. exact (format_alert_properties f p Hp).
Qed.

Lemma format_alert_outcomes_witness :
  format_alert (VDict [("type", VStr "Feature"); ("properties", VNone)]) =
  Raise AttributeError.
Proof.
  refine (proj2 (proj2 (proj2 (format_alert_outcomes
            (VDict [("type", VStr "Feature"); ("properties", VNone)]))))
            [("type", VStr "Feature"); ("properties", VNone)] VNone eq_refl eq_refl _).
  discriminate.
Defined.

(** [format_alert] reads nothing but the five keys of the properties: two
    features whose properties agree on those keys get the same text,
    whatever else the features or their properties hold. *)
Theorem format_alert_reads_five_keys :
  forall (f f' p p' : dict),
    dict_get "properties" f = Some (VDict p) ->
    dict_get "properties" f' = Some (VDict p') ->
    Forall (fun k => dict_get k p = dict_get k p') alert_keys ->
    format_alert (VDict f) = format_alert (VDict f').
Proof.
  intros f f' p p' Hp Hp' Hkeys.
  rewrite (format_alert_properties f p Hp), (format_alert_properties f' p' Hp').
  unfold alert_keys in Hkeys.
  repeat match goal with
         | H : Forall _ (_ :: _) |- _ => inversion H; clear H; subst
         end.
  unfold field_or.
  repeat match goal with
         | H : dict_get _ p = dict_get _ p' |- _ => rewrite H; clear H
         end.
  reflexivity.
Qed.

Lemma format_alert_reads_five_keys_witness :
  format_alert (VDict flood_feature) =
  format_alert
    (VDict [("properties",
             VDict [("id", VStr "urn:oid:2.49.0.1.840.0"); ("severity", VStr "Severe");
                    ("event", VStr "Flood Warning"); ("urgency", VStr "Immediate")])]).
Proof.
  apply (format_alert_reads_five_keys flood_feature _
           [("event", VStr "Flood Warning"); ("severity", VStr "Severe")]
           [("id", VStr "urn:oid:2.49.0.1.840.0"); ("severity", VStr "Severe");
            ("event", VStr "Flood Warning"); ("urgency", VStr "Immediate")]).
  - reflexivity.
  - reflexivity.
  - repeat constructor.
Defined.

(** ** Periods that lack a field *)

(** The loop body of [get_forecast] has no fallback: on a period record it
    raises [KeyError] for the first of the six keys, in the order name,
    temperature, temperatureUnit, windSpeed, windDirection,
    detailedForecast, that the record lacks, and returns the text built from
    the six values only when all are there; a period that is not a record
    raises [TypeError]. *)
Theorem forecast_of_period_first_missing :
  forall period : value,
    ((forall p, period <> VDict p) -> forecast_of_period period = Raise TypeError) /\
    (forall p k, period = VDict p -> first_missing period_keys p = Some k ->
                 forecast_of_period period = Raise (KeyError k)) /\
    (forall p, period = VDict p -> first_missing period_keys p = None ->
               exists name temperature unit wind_speed wind_direction detailed,
                 dict_get "name" p = Some name /\
                 dict_get "temperature" p = Some temperature /\
                 dict_get "temperatureUnit" p = Some unit /\
                 dict_get "windSpeed" p = Some wind_speed /\
                 dict_get "windDirection" p = Some wind_direction /\
                 dict_get "detailedForecast" p = Some detailed /\
                 forecast_of_period period =
                 Ok (forecast_text (py_str name) (py_str temperature) (py_str unit)
                       (py_str wind_speed) (py_str wind_direction) (py_str detailed))).
Proof.
  intros period. split; [| split].
  - intros H. destruct period; try reflexivity. now destruct (H entries).
  - intros p k -> Hk. revert Hk.
    unfold first_missing, period_keys, forecast_of_period, subscript, result_bind.
    cbn [find].
    destruct (dict_get "name" p); [| now intros [= <-]].
    destruct (dict_get "temperature" p); [| now intros [= <-]].
    destruct (dict_get "temperatureUnit" p); [| now intros [= <-]].
    destruct (dict_get "windSpeed" p); [| now intros [= <-]].
    destruct (dict_get "windDirection" p); [| now intros [= <-]].
    destruct (dict_get "detailedForecast" p); [| now intros [= <-]].
    discriminate.
  - intros p -> Hk. revert Hk.
    unfold first_missing, period_keys, forecast_of_period, subscript, result_bind.
    cbn [find].
    destruct (dict_get "name" p) as [name |]; [| discriminate].
    destruct (dict_get "temperature" p) as [temperature |]; [| discriminate].
    destruct (dict_get "temperatureUnit" p) as [unit |]; [| discriminate].
    destruct (dict_get "windSpeed" p) as [wind_speed |]; [| discriminate].
    destruct (dict_get "windDirection" p) as [wind_direction |]; [| discriminate].
    destruct (dict_get "detailedForecast" p) as [detailed |]; [| discriminate].
    intros _. exists name, temperature, unit, wind_speed, wind_direction, detailed.
    repeat split.
Qed.

Lemma forecast_of_period_first_missing_witness :
  forecast_of_period (VDict bare_period) = Raise (KeyError "temperatureUnit").
Proof.
  exact (proj1 (proj2 (forecast_of_period_first_missing (VDict bare_period)))
           bare_period "temperatureUnit" eq_refl eq_refl).
Defined.

Lemma traverse_first_failure {A B} {f : A -> result B} {good : list A} {ys : list B}
      (bad : A) (rest : list A) (e : exn) :
  Forall2 (fun x y => f x = Ok y) good ys ->
  f bad = Raise e ->
  traverse f (good ++ bad :: rest) = Raise e.
Proof.
  induction 1 as [| x y xs ys' Hxy _ IH]; intros Hbad; cbn.
  - now rewrite Hbad.
  - now rewrite Hxy, (IH Hbad).
Qed.

(** A forecast is all or nothing: when one of the first three periods fails
    to format, [get_forecast] raises the error of the first such period and
    returns no partial text, whatever the periods before it gave. *)
Theorem get_forecast_first_bad_period :
  forall (w : transport) (lat lon : pyfloat) (data u : value) (d2 p2 : dict)
         (periods good rest : list value) (bad : value) (blocks : list string)
         (e : exn) (log1 log2 : list request),
    make_nws_request w (VStr (points_url lat lon)) [] = (Ok data, log1) ->
    forecast_link data = Some u ->
    make_nws_request w u log1 = (Ok (VDict d2), log2) ->
    dict_get "properties" d2 = Some (VDict p2) ->
    dict_get "periods" p2 = Some (VList periods) ->
    firstn 3 periods = (good ++ bad :: rest)%list ->
    Forall2 (fun period block => forecast_of_period period = Ok block) good blocks ->
    forecast_of_period bad = Raise e ->
    get_forecast w lat lon [] = (Raise e, log2).
Proof.
  intros w lat lon data u d2 p2 periods good rest bad blocks e log1 log2
         Hf Hl Hf2 Hp Hps Hsplit Hgood Hbad.
  rewrite (get_forecast_link Hf Hl Hf2).
  destruct d2 as [| kv d2']; [discriminate |]. cbn [truthy].
  unfold forecast_body, subscript. rewrite Hp. cbn [result_bind]. rewrite Hps.
  cbn [result_bind slice3 py_iter].
  rewrite for_each_append_forecast, Hsplit, (traverse_first_failure bad rest e Hgood Hbad).
  reflexivity.
Qed.

Lemma get_forecast_first_bad_period_witness :
  get_forecast
    (serve [sample_points;
            VDict [("properties",
                    VDict [("periods",
                            VList [sample_period "Tonight" 55; VDict bare_period;
                                   sample_period "Friday Night" 52])])]])
    sample_lat sample_lon [] =
  (Raise (KeyError "temperatureUnit"),
   [nws_request (VStr (points_url sample_lat sample_lon));
    nws_request (VStr "https://api.weather.gov/gridpoints/PHI/49,75/forecast")]).
Proof.
  refine (get_forecast_first_bad_period _ sample_lat sample_lon sample_points
            (VStr "https://api.weather.gov/gridpoints/PHI/49,75/forecast")
            _ _ _ [sample_period "Tonight" 55] [sample_period "Friday Night" 52]
            (VDict bare_period) _ _ _ _ _ _ _ _ _ _ _ _).
  - reflexivity.
  - reflexivity.
  - reflexivity.
  - reflexivity.
  - reflexivity.
  - reflexivity.
  - repeat constructor.
  - reflexivity.
Defined.

(** A forecast response whose [properties] record has no [periods] key
    makes [get_forecast] raise the [KeyError] of that key. *)
Theorem get_forecast_raises_without_periods :
  forall (w : transport) (lat lon : pyfloat) (data u : value) (d2 p2 : dict)
         (log1 log2 : list request),
    make_nws_request w (VStr (points_url lat lon)) [] = (Ok data, log1) ->
    forecast_link data = Some u ->
    make_nws_request w u log1 = (Ok (VDict d2), log2) ->
    dict_get "properties" d2 = Some (VDict p2) ->
    dict_get "periods" p2 = None ->
    get_forecast w lat lon [] = (Raise (KeyError "periods"), log2).
Proof.
  intros w lat lon data u d2 p2 log1 log2 Hf Hl Hf2 Hp Hps.
  rewrite (get_forecast_link Hf Hl Hf2).
  destruct d2 as [| kv d2']; [discriminate |]. cbn [truthy].
  unfold forecast_body, subscript. rewrite Hp. cbn [result_bind]. now rewrite Hps.
Qed.

Lemma get_forecast_raises_without_periods_witness :
  get_forecast
    (serve [sample_points; VDict [("properties", VDict [("updated", VStr "2024-05-01")])]])
    sample_lat sample_lon [] =
  (Raise (KeyError "periods"),
   [nws_request (VStr (points_url sample_lat sample_lon));
    nws_request (VStr "https://api.weather.gov/gridpoints/PHI/49,75/forecast")]).
Proof.
  refine (get_forecast_raises_without_periods _ sample_lat sample_lon sample_points
            (VStr "https://api.weather.gov/gridpoints/PHI/49,75/forecast")
            _ _ _ _ _ _ _ _ _).
  - reflexivity.
  - reflexivity.
  - reflexivity.
  - reflexivity.
  - reflexivity.
Defined.

(** ** Features that do not format *)

(** An alert report is all or nothing: when a feature of the sequence fails
    to format, [get_weather_alerts] raises the error of the first such
    feature and returns no partial text. *)
Theorem get_weather_alerts_first_bad_feature :
  forall (w : transport) (state : string) (d : dict) (good rest : list value)
         (bad : value) (blocks : list string) (e : exn) (log' : list request),
    make_nws_request w (VStr (alerts_url state)) [] = (Ok (VDict d), log') ->
    dict_get "features" d = Some (VList (good ++ bad :: rest)) ->
    Forall2 (fun feature block => format_alert feature = Ok block) good blocks ->
    format_alert bad = Raise e ->
    get_weather_alerts w state [] = (Raise e, log').
Proof.
  intros w state d good rest bad blocks e log' Hf Hd Hgood Hbad.
  rewrite (get_weather_alerts_features Hf Hd).
  assert (Ht : truthy (VList (good ++ bad :: rest)) = true) by now destruct good.
  rewrite Ht. cbn [py_iter result_bind].
  now rewrite (traverse_first_failure bad rest e Hgood Hbad).
Qed.

Lemma get_weather_alerts_first_bad_feature_witness :
  get_weather_alerts
    (serve [VDict [("features",
                    VList [VDict flood_feature; VDict [("type", VStr "Feature")];
                           VDict null_feature])]])
    "CA" [] =
  (Raise (KeyError "properties"), [nws_request (VStr (alerts_url "CA"))]).
Proof.
  refine (get_weather_alerts_first_bad_feature _ "CA" _ [VDict flood_feature]
            [VDict null_feature] (VDict [("type", VStr "Feature")]) _ _ _ _ _ _ _).
  - reflexivity.
  - reflexivity.
  - repeat constructor.
  - reflexivity.
Defined.

(** ** The shape of the results *)

Lemma string_app_assoc (a b c : string) : ((a ++ b) ++ c)%string = (a ++ b ++ c)%string.
Proof. induction a as [| x a IH]; cbn; [reflexivity | now rewrite IH]. Qed.

Lemma join_app (sep : string) (xs ys : list string) :
  xs <> [] -> ys <> [] ->
  join sep (xs ++ ys) = (join sep xs ++ sep ++ join sep ys)%string.
Proof.
  intros Hx Hy. induction xs as [| x xs IH]; [contradiction |].
  destruct xs as [| x' xs].
  - cbn. destruct ys; [contradiction | reflexivity].
  - change (join sep ((x :: x' :: xs) ++ ys))
      with (x ++ sep ++ join sep ((x' :: xs) ++ ys))%string.
    rewrite IH by discriminate.
    change (join sep (x :: x' :: xs)) with (x ++ sep ++ join sep (x' :: xs))%string.
    now rewrite !string_app_assoc.
Qed.

Lemma format_alert_prefix (feature : value) (s : string) :
  format_alert feature = Ok s ->
  exists rest, s = (LF ++ "        Event: " ++ rest)%string.
Proof.
  unfold format_alert, result_bind.
  destruct (subscript feature "properties") as [props |]; [| discriminate].
  repeat match goal with
         | |- context [match py_get ?p ?k ?d with _ => _ end] =>
             destruct (py_get p k d); [| discriminate]
         end.
  intros [= <-]. unfold alert_text. eexists. reflexivity.
Qed.

Lemma forecast_of_period_prefix (period : value) (s : string) :
  forecast_of_period period = Ok s ->
  exists rest, s = (LF ++ "            " ++ rest)%string.
Proof.
  unfold forecast_of_period, result_bind.
  repeat match goal with
         | |- context [match subscript ?p ?k with _ => _ end] =>
             destruct (subscript p k); [| discriminate]
         end.
  intros [= <-]. unfold forecast_text. eexists. reflexivity.
Qed.

Lemma join_prefix (pre sep rest : string) (blocks : list string) :
  exists rest', join sep ((pre ++ rest)%string :: blocks) = (pre ++ rest')%string.
Proof.
  destruct blocks as [| b bs].
  - now exists rest.
  - exists (rest ++ sep ++ join sep (b :: bs))%string.
    change (join sep ((pre ++ rest)%string :: b :: bs))
      with ((pre ++ rest) ++ sep ++ join sep (b :: bs))%string.
    now rewrite string_app_assoc.
Qed.

Lemma truthy_iter_nonempty (v : value) (items : list value) :
  truthy v = true -> py_iter v = Ok items -> items <> [].
Proof.
  destruct v as [| | | | s | l | d]; try discriminate; cbn.
  - destruct s as [| c s]; [discriminate |]. intros _ [= <-]. cbn.
    destruct (codepoints s); [discriminate |].
    destruct (starts_with_continuation s); discriminate.
  - destruct l; [discriminate |]. now intros _ [= <-].
  - destruct d; [discriminate |]. now intros _ [= <-].
Qed.

(** A text that [get_weather_alerts] returns is one of three kinds: the
    fixed text for alerts that could not be fetched, the fixed text for no
    active alerts, or a report, which begins with the first line of the
    alert template.  So the result is never empty, and a report is never
    mistaken for one of the fixed texts. *)
Theorem get_weather_alerts_result_shape :
  forall (w : transport) (state : string) (log : list request) (s : string),
    fst (get_weather_alerts w state log) = Ok s ->
    s = "No alerts found or unable to fetch alerts" \/
    s = "No active weather alerts for the specified state." \/
    (exists rest, s = (LF ++ "        Event: " ++ rest)%string).
Proof.
  intros w state log s.
  pose proof (make_nws_request_run w (VStr (alerts_url state)) log) as Hf.
  destruct (fetch_result _) as [| b | n | f | t | items | d];
    try (unfold get_weather_alerts, bind; rewrite Hf; crunch;
         intros [= <-]; now left).
  destruct (dict_get "features" d) as [v |] eqn:Hd.
  - rewrite (get_weather_alerts_features Hf Hd). cbn [fst].
    destruct (truthy v) eqn:Hv; [| intros [= <-]; right; now left].
    unfold result_bind.
    destruct (py_iter v) as [items |] eqn:Hi; [| discriminate].
    destruct (traverse format_alert items) as [blocks |] eqn:Ht; [| discriminate].
    intros [= <-]. right. right.
    destruct items as [| x xs]; [now destruct (truthy_iter_nonempty v [] Hv Hi) |].
    cbn in Ht. unfold result_bind in Ht.
    destruct (format_alert x) as [b |] eqn:Hb; [| discriminate].
    destruct (traverse format_alert xs) as [bs |]; [| discriminate].
    injection Ht as <-. apply format_alert_prefix in Hb as [rest ->].
    apply (join_prefix (LF ++ "        Event: ")).
  - rewrite (get_weather_alerts_no_features Hf); [intros [= <-]; now left |].
    right. now exists d.
Qed.

Lemma get_weather_alerts_result_shape_witness :
  "No active weather alerts for the specified state." =
  "No alerts found or unable to fetch alerts" \/
  "No active weather alerts for the specified state." =
  "No active weather alerts for the specified state." \/
  (exists rest, "No active weather alerts for the specified state." =
                (LF ++ "        Event: " ++ rest)%string).
Proof.
  exact (get_weather_alerts_result_shape (serve [VDict [("features", VList [])]]) "CA" []
           "No active weather alerts for the specified state." eq_refl).
Defined.

(** The report for a sequence of features that falls into two non-empty
    parts is the report of the first part, the separator line, and the
    report of the second part. *)
Theorem get_weather_alerts_concat :
  forall (w : transport) (state : string) (d : dict) (fs1 fs2 : list value)
         (blocks1 blocks2 : list string) (log' : list request),
    make_nws_request w (VStr (alerts_url state)) [] = (Ok (VDict d), log') ->
    dict_get "features" d = Some (VList (fs1 ++ fs2)) ->
    fs1 <> [] -> fs2 <> [] ->
    Forall2 (fun feature block => format_alert feature = Ok block) fs1 blocks1 ->
    Forall2 (fun feature block => format_alert feature = Ok block) fs2 blocks2 ->
    get_weather_alerts w state [] =
    (Ok (join (LF ++ "----" ++ LF) blocks1 ++ (LF ++ "----" ++ LF) ++
         join (LF ++ "----" ++ LF) blocks2)%string, log').
Proof.
  intros w state d fs1 fs2 blocks1 blocks2 log' Hf Hd H1 H2 Hb1 Hb2.
  rewrite (get_weather_alerts_features Hf Hd).
  assert (Ht : truthy (VList (fs1 ++ fs2)) = true).
  { destruct fs1; [contradiction | reflexivity]. }
  rewrite Ht. cbn [py_iter result_bind].
  rewrite (traverse_Forall2 (Forall2_app Hb1 Hb2)). cbn [result_bind].
  unfold alert_separator. rewrite join_app; [reflexivity | |].
  - intros ->. inversion Hb1. congruence.
  - intros ->. inversion Hb2. congruence.
Qed.

Lemma get_weather_alerts_concat_witness :
  get_weather_alerts
    (serve [VDict [("features", VList [VDict flood_feature; VDict null_feature])]])
    "CA" [] =
  (Ok (join (LF ++ "----" ++ LF)
         [alert_text "Flood Warning" "Unknown" "Severe" "No description available"
            "No specific instructions provided"] ++ (LF ++ "----" ++ LF) ++
       join (LF ++ "----" ++ LF)
         [alert_text "None" "Unknown" "Unknown" "No description available" "None"])%string,
   [nws_request (VStr (alerts_url "CA"))]).
Proof.
  refine (get_weather_alerts_concat _ "CA" _ [VDict flood_feature] [VDict null_feature]
            _ _ _ _ _ _ _ _ _).
  - reflexivity.
  - reflexivity.
  - discriminate.
  - discriminate.
  - repeat constructor.
  - repeat constructor.
Defined.

Lemma forecast_body_shape (forecast_data : value) (s : string) :
  forecast_body forecast_data = Ok s ->
  s = EmptyString \/ (exists rest, s = (LF ++ "            " ++ rest)%string).
Proof.
  unfold forecast_body, result_bind.
  destruct (subscript forecast_data "properties") as [props |]; [| discriminate].
  destruct (subscript props "periods") as [periods |]; [| discriminate].
  destruct (slice3 periods) as [first3 |]; [| discriminate].
  destruct (py_iter first3) as [items |]; [| discriminate].
  rewrite for_each_append_forecast. unfold result_bind.
  destruct (traverse forecast_of_period items) as [blocks |] eqn:Ht; [| discriminate].
  intros [= <-]. cbn [app].
  destruct items as [| x xs]; cbn in Ht.
  - injection Ht as <-. now left.
  - right. unfold result_bind in Ht.
    destruct (forecast_of_period x) as [b |] eqn:Hb; [| discriminate].
    destruct (traverse forecast_of_period xs) as [bs |]; [| discriminate].
    injection Ht as <-. apply forecast_of_period_prefix in Hb as [rest ->].
    apply (join_prefix (LF ++ "            ")).
Qed.

Lemma get_forecast_no_link_result {w : transport} {lat lon : pyfloat}
      {data : value} {log log1 : list request} (s : string) :
  make_nws_request w (VStr (points_url lat lon)) log = (Ok data, log1) ->
  forecast_link data = None ->
  fst (get_forecast w lat lon log) = Ok s ->
  s = UNABLE_TO_FETCH.
Proof.
  intros Hf Hl. unfold get_forecast, bind. rewrite Hf.
  destruct data as [| b | n | f | t | items | d];
    try (crunch; now intros [= <-]).
  cbn in Hl. unfold lift, or_else, py_not_in, py_in, subscript, result_bind, ret.
  destruct d as [| kv d']; [now intros [= <-] |]. cbn [truthy negb].
  destruct (dict_get "properties" (kv :: d')) as [v |]; [| now intros [= <-]].
  cbn [negb].
  destruct v as [| b | n | f | t | items | p]; try (crunch; now intros [= <-]).
  rewrite Hl. now intros [= <-].
Qed.

(** A text that [get_forecast] returns is one of three kinds: the fixed
    text for a forecast that could not be fetched, the empty text, or a
    forecast, which begins with a line break and the indentation of the
    period template.  So a forecast is never mistaken for the fixed text. *)
Theorem get_forecast_result_shape :
  forall (w : transport) (lat lon : pyfloat) (log : list request) (s : string),
    fst (get_forecast w lat lon log) = Ok s ->
    s = "Unable to fetch forecast data." \/
    s = EmptyString \/
    (exists rest, s = (LF ++ "            " ++ rest)%string).
Proof.
  intros w lat lon log s.
  pose proof (make_nws_request_run w (VStr (points_url lat lon)) log) as Hf.
  destruct (forecast_link (fetch_result (w (List.length log)
              (nws_request (VStr (points_url lat lon)))))) as [u |] eqn:Hl.
  - rewrite (get_forecast_link Hf Hl (make_nws_request_run w u _)). cbn [fst].
    destruct (truthy _); [| intros [= <-]; now left].
    intros Hs. right. exact (forecast_body_shape _ s Hs).
  - intros Hs. left. exact (get_forecast_no_link_result s Hf Hl Hs).
Qed.

Lemma get_forecast_result_shape_witness :
  "Unable to fetch forecast data." = "Unable to fetch forecast data." \/
  "Unable to fetch forecast data." = EmptyString \/
  (exists rest, "Unable to fetch forecast data." = (LF ++ "            " ++ rest)%string).
Proof.
  exact (get_forecast_result_shape (serve [VDict [("properties", VDict [])]])
           sample_lat sample_lon [] "Unable to fetch forecast data." eq_refl).
Defined.

(** With a forecast response that has a period sequence, [get_forecast]
    returns the empty text if and only if the sequence is empty: no periods
    give an empty result, not the fixed text, and any period gives either a
    non-empty forecast or an error. *)
Theorem get_forecast_empty_iff_no_periods :
  forall (w : transport) (lat lon : pyfloat) (data u : value) (d2 p2 : dict)
         (periods : list value) (log1 log2 : list request),
    make_nws_request w (VStr (points_url lat lon)) [] = (Ok data, log1) ->
    forecast_link data = Some u ->
    make_nws_request w u log1 = (Ok (VDict d2), log2) ->
    dict_get "properties" d2 = Some (VDict p2) ->
    dict_get "periods" p2 = Some (VList periods) ->
    (fst (get_forecast w lat lon []) = Ok EmptyString <-> periods = []).
Proof.
  intros w lat lon data u d2 p2 periods log1 log2 Hf Hl Hf2 Hp Hps.
  rewrite (get_forecast_link Hf Hl Hf2).
  destruct d2 as [| kv d2']; [discriminate |]. cbn [truthy fst].
  unfold forecast_body, subscript. rewrite Hp. cbn [result_bind]. rewrite Hps.
  cbn [result_bind slice3 py_iter]. rewrite for_each_append_forecast.
  destruct periods as [| x xs].
  - split; reflexivity.
  - split; [| discriminate].
    change (firstn 3 (x :: xs)) with (x :: firstn 2 xs).
    cbn [traverse]. unfold result_bind.
    destruct (forecast_of_period x) as [b |] eqn:Hb; [| discriminate].
    destruct (traverse forecast_of_period (firstn 2 xs)) as [bs |]; [| discriminate].
    apply forecast_of_period_prefix in Hb as [rest ->]. cbn [app].
    destruct (join_prefix (LF ++ "            ") forecast_separator rest bs) as [r Hr].
    assert (E : join forecast_separator ((LF ++ "            " ++ rest)%string :: bs) =
                (LF ++ "            " ++ r)%string) by exact Hr.
    rewrite E. discriminate.
Qed.

Lemma get_forecast_empty_iff_no_periods_witness :
  fst (get_forecast
         (serve [sample_points; VDict [("properties", VDict [("periods", VList [])])]])
         sample_lat sample_lon []) = Ok EmptyString.
Proof.
  refine (proj2 (get_forecast_empty_iff_no_periods
                   (serve [sample_points; VDict [("properties", VDict [("periods", VList [])])]])
                   sample_lat sample_lon sample_points
                   (VStr "https://api.weather.gov/gridpoints/PHI/49,75/forecast")
                   [("properties", VDict [("periods", VList [])])]
                   [("periods", VList [])] []
                   [nws_request (VStr (points_url sample_lat sample_lon))]
                   [nws_request (VStr (points_url sample_lat sample_lon));
                    nws_request (VStr "https://api.weather.gov/gridpoints/PHI/49,75/forecast")]
                   eq_refl eq_refl eq_refl eq_refl eq_refl) eq_refl).
Defined.

(** [get_weather_alerts] reads nothing of a response record but what is
    under [features]: two response records that agree there give the same
    result, whatever else they hold. *)
Theorem get_weather_alerts_reads_features_only :
  forall (w w' : transport) (state : string) (d d' : dict) (log1 log1' : list request),
    make_nws_request w (VStr (alerts_url state)) [] = (Ok (VDict d), log1) ->
    make_nws_request w' (VStr (alerts_url state)) [] = (Ok (VDict d'), log1') ->
    dict_get "features" d = dict_get "features" d' ->
    fst (get_weather_alerts w state []) = fst (get_weather_alerts w' state []).
Proof.
  intros w w' state d d' log1 log1' Hf Hf' Heq.
  destruct (dict_get "features" d) as [v |] eqn:Hd; symmetry in Heq.
  - now rewrite (get_weather_alerts_features Hf Hd), (get_weather_alerts_features Hf' Heq).
  - rewrite (get_weather_alerts_no_features Hf), (get_weather_alerts_no_features Hf');
      [reflexivity | right; now exists d' | right; now exists d].
Qed.

Lemma get_weather_alerts_reads_features_only_witness :
  fst (get_weather_alerts (serve [VDict [("features", VList [VDict flood_feature])]]) "CA" []) =
  fst (get_weather_alerts
         (serve [VDict [("type", VStr "FeatureCollection");
                        ("features", VList [VDict flood_feature]);
                        ("title", VStr "Current watches, warnings, and advisories")]])
         "CA" []).
Proof.
  refine (get_weather_alerts_reads_features_only _ _ "CA"
            [("features", VList [VDict flood_feature])]
            [("type", VStr "FeatureCollection");
             ("features", VList [VDict flood_feature]);
             ("title", VStr "Current watches, warnings, and advisories")]
            _ _ _ _ _).
  - reflexivity.
  - reflexivity.
  - reflexivity.
Defined.

(** ** Reading the input back from [my_tool] *)

Lemma substring_all (s : string) : substring 0 (String.length s) s = s.
Proof. induction s as [| c s IH]; cbn; [reflexivity | now rewrite IH]. Qed.

Lemma substring_after_prefix (p s : string) :
  substring (String.length p) (String.length s) (p ++ s) = s.
Proof. induction p as [| c p IH]; cbn; [apply substring_all | exact IH]. Qed.

(** [my_tool] makes no request and returns its fixed text followed by the
    input unchanged: dropping the 51 characters of the fixed text from the
    result gives the input back, whatever the input (empty, or with any
    characters).  So different inputs give different results. *)
Theorem my_tool_round_trip :
  forall (input_string : string) (log : list request),
    my_tool input_string log =
    (Ok ("This is a test tool that returns the input string: " ++ input_string), log) /\
    substring 51 (String.length input_string)
      ("This is a test tool that returns the input string: " ++ input_string) =
    input_string /\
    (forall other, my_tool other log = my_tool input_string log -> other = input_string).
Proof.
  intros input_string log.
  split; [reflexivity |]. split.
  - exact (substring_after_prefix
             "This is a test tool that returns the input string: " input_string).
  - unfold my_tool, ret. intros other [= E]. exact E.
Qed.
